(** * HealthCare_System: the symptom checker's front end

    A shallow embedding of the TypeScript sources

    - the [Index] page, second document of
      [src/frontend/src/pages/NotFound.tsx] (module [Index]): the form
      handler [handleSubmit] and the urgency badge its result feeds;
    - the [History] page, [src/unnamed/part_001] (module [History]):
      [safeDateFromDoc], what the callback of [items.map] extracts from
      an item, and [handleDelete];
    - [lib/api], [src/unnamed/part_002] (module [Api]): [fetchHistory]
      and [deleteHistory].

    The data these functions handle comes from [response.json()] and is
    [any] at run time, so it is modelled by the run-time values of the
    language (module [Js]): property reads, truthiness, [Array.isArray],
    string conversion and the exceptions they raise are written out.

    What belongs to the host (numbers and their printing, [Date], the
    text of engine-made error messages, the build-time environment) is
    collected in the class [Host]; definitions and theorems are generic
    in it, and [Sample.host] is a small host to run them on.

    Strings: a [string] stands for the JavaScript string with the same
    code units.  [trim], [toUpperCase] and [toLowerCase] are the
    language's on code units below 128; a statement whose truth depends
    on that restriction carries [isAscii]. *)

From Stdlib Require Import String Ascii List ZArith Bool Arith Lia.
From Stdlib Require Import DecimalString.
Import ListNotations.
Local Open Scope string_scope.
Local Open Scope list_scope.

Set Warnings "-register-all".


(* ===================================================================== *)
(** * Exceptions *)
(* ===================================================================== *)

(** Why the language itself raised a [TypeError]. *)
Inductive typeErrorCause :=
  | ReadOfNullish (key : string)   (* x.key with x null or undefined *)
  | NotAFunction (key : string)    (* x.key() where x.key is not callable *)
  | NotPrimitive.                  (* no primitive value for an object *)

Inductive thrown :=
  | ErrorObj (message : string)        (* throw new Error(message) *)
  | TypeErrorObj (cause : typeErrorCause)
  | HostRejection (message : string).  (* rejected promise: fetch, text(), json() *)

Inductive exc (A : Type) :=
  | Return (a : A)
  | Throw (e : thrown).
Arguments Return {A} a.
Arguments Throw {A} e.

Definition bind {A B} (m : exc A) (k : A -> exc B) : exc B :=
  match m with
  | Return a => k a
  | Throw e => Throw e
  end.

Notation "x <- m ;; k" := (bind m (fun x => k))
  (at level 61, m at next level, right associativity).

Definition returns {A} (m : exc A) : bool :=
  match m with Return _ => true | Throw _ => false end.

(* ===================================================================== *)
(** * The host *)
(* ===================================================================== *)

Class Host := {
  number : Type;
  numberToBoolean : number -> bool;      (* false on +0, -0 and NaN *)
  numberToString : number -> string;     (* Number.prototype.toString *)
  numberIsNaN : number -> bool;          (* isNaN *)
  numberOfZ : Z -> number;               (* an integer literal *)
  numberNaN : number;
  parseInt : string -> number;
  dateParse : string -> number;          (* time value of new Date(<string>) *)
  timeClip : number -> number;           (* time value of new Date(<number>) *)
  dateToLocaleString : number -> string; (* Date.prototype.toLocaleString *)
  typeErrorMessage : typeErrorCause -> string;
  VITE_API_URL : option string           (* import.meta.env.VITE_API_URL *)
}.

(* ===================================================================== *)
(** * Strings *)
(* ===================================================================== *)

Module Str.

Definition isWhiteSpace (c : ascii) : bool :=
  let n := nat_of_ascii c in
  ((9 <=? n)%nat && (n <=? 13)%nat) || (n =? 32)%nat.

Definition upperChar (c : ascii) : ascii :=
  let n := nat_of_ascii c in
  if (97 <=? n)%nat && (n <=? 122)%nat then ascii_of_nat (n - 32) else c.

Definition lowerChar (c : ascii) : ascii :=
  let n := nat_of_ascii c in
  if (65 <=? n)%nat && (n <=? 90)%nat then ascii_of_nat (n + 32) else c.

Fixpoint mapChars (f : ascii -> ascii) (s : string) : string :=
  match s with
  | EmptyString => EmptyString
  | String c r => String (f c) (mapChars f r)
  end.

Definition toUpperCase : string -> string := mapChars upperChar.
Definition toLowerCase : string -> string := mapChars lowerChar.

Fixpoint trimStart (s : string) : string :=
  match s with
  | EmptyString => EmptyString
  | String c r => if isWhiteSpace c then trimStart r else s
  end.

Fixpoint trimEnd (s : string) : string :=
  match s with
  | EmptyString => EmptyString
  | String c r =>
      match trimEnd r with
      | EmptyString => if isWhiteSpace c then EmptyString else String c EmptyString
      | r' => String c r'
      end
  end.

Definition trim (s : string) : string := trimEnd (trimStart s).

(** [s.charAt(n)]: the empty string past the end. *)
Fixpoint charAt (n : nat) (s : string) : string :=
  match s, n with
  | EmptyString, _ => EmptyString
  | String c _, O => String c EmptyString
  | String _ r, S m => charAt m r
  end.

(** [s.slice(n)] for [n >= 0]. *)
Fixpoint slice (n : nat) (s : string) : string :=
  match n, s with
  | O, _ => s
  | S m, String _ r => slice m r
  | S _, EmptyString => EmptyString
  end.

Fixpoint isAscii (s : string) : bool :=
  match s with
  | EmptyString => true
  | String c r => (nat_of_ascii c <? 128)%nat && isAscii r
  end.

Definition isEmpty (s : string) : bool :=
  match s with EmptyString => true | _ => false end.

(** A string mapped with [f] on its first code unit and [g] on the rest. *)
Definition mapHeadTail (f g : ascii -> ascii) (s : string) : string :=
  match s with
  | EmptyString => EmptyString
  | String c r => String (f c) (mapChars g r)
  end.

(** The string does not begin with white space. *)
Definition startsClean (s : string) : bool :=
  match s with
  | EmptyString => true
  | String c _ => negb (isWhiteSpace c)
  end.

End Str.

(* ===================================================================== *)
(** * Run-time values *)
(* ===================================================================== *)

Module Js.
Section WithHost.
Context {H : Host}.

(** A parsed object lists each key once; a read takes the first entry. *)
Inductive value :=
  | JUndefined
  | JNull
  | JBool (b : bool)
  | JNumber (n : number)
  | JString (s : string)
  | JArray (items : list value)
  | JObject (fields : list (string * value)).

Fixpoint lookup (k : string) (fields : list (string * value)) : option value :=
  match fields with
  | [] => None
  | (k', v) :: r => if String.eqb k k' then Some v else lookup k r
  end.

Definition hasOwn (k : string) (fields : list (string * value)) : bool :=
  match lookup k fields with Some _ => true | None => false end.

(** [o.k = v]: an existing entry is overwritten in place. *)
Fixpoint assign (k : string) (v : value) (fields : list (string * value))
  : list (string * value) :=
  match fields with
  | [] => [(k, v)]
  | (k', v') :: r =>
      if String.eqb k k' then (k', v) :: r else (k', v') :: assign k v r
  end.

(** ToBoolean. *)
Definition truthy (v : value) : bool :=
  match v with
  | JUndefined | JNull => false
  | JBool b => b
  | JNumber n => numberToBoolean n
  | JString s => negb (Str.isEmpty s)
  | JArray _ | JObject _ => true
  end.

Definition isNullish (v : value) : bool :=
  match v with JUndefined | JNull => true | _ => false end.

(** [v.k], for the keys this program reads ([name], [conditions], [_id],
    [$date], ...): none of them is inherited from a prototype, so on a
    string, number, boolean or array the read gives [undefined]. *)
Definition getProp (v : value) (k : string) : exc value :=
  match v with
  | JUndefined | JNull => Throw (TypeErrorObj (ReadOfNullish k))
  | JObject fields =>
      Return (match lookup k fields with Some x => x | None => JUndefined end)
  | _ => Return JUndefined
  end.

(** [v?.k]: [undefined] on null and undefined, else the read, which
    cannot throw. *)
Definition optProp (v : value) (k : string) : value :=
  match v with
  | JObject fields =>
      match lookup k fields with Some x => x | None => JUndefined end
  | _ => JUndefined
  end.

(** [a || b] and [a ?? b] *)
Definition or (a b : value) : value := if truthy a then a else b.
Definition coalesce (a b : value) : value := if isNullish a then b else a.

Definition isArray (v : value) : bool :=
  match v with JArray _ => true | _ => false end.

Definition typeofIsString (v : value) : bool :=
  match v with JString _ => true | _ => false end.

(** [Array.prototype.join] with the default separator, given the
    conversion of one element: null and undefined give the empty string. *)
Section Join.
Variable conv : value -> exc string.

Definition elementString (x : value) : exc string :=
  match x with
  | JUndefined | JNull => Return ""
  | _ => conv x
  end.

Fixpoint joinWith (l : list value) : exc string :=
  match l with
  | [] => Return ""
  | x :: r =>
      sx <- elementString x ;;
      match r with
      | [] => Return sx
      | _ => sr <- joinWith r ;; Return (sx ++ "," ++ sr)%string
      end
  end.
End Join.

(** ToString ([String(v)], a template literal, a property key).
    An object is converted through its [toString] method; entries of a
    parsed object are never callable, so an own entry of that name hides
    [Object.prototype.toString] and no primitive value is found. *)
Fixpoint ToString (v : value) : exc string :=
  match v with
  | JUndefined => Return "undefined"
  | JNull => Return "null"
  | JBool true => Return "true"
  | JBool false => Return "false"
  | JNumber n => Return (numberToString n)
  | JString s => Return s
  | JArray items => joinWith ToString items
  | JObject fields =>
      if hasOwn "toString" fields then Throw (TypeErrorObj NotPrimitive)
      else Return "[object Object]"
  end.

(** [v.toString()] *)
Definition toStringMethod (v : value) : exc string :=
  match v with
  | JUndefined | JNull => Throw (TypeErrorObj (ReadOfNullish "toString"))
  | JObject fields =>
      if hasOwn "toString" fields then Throw (TypeErrorObj (NotAFunction "toString"))
      else Return "[object Object]"
  | _ => ToString v
  end.

(** No object inside [v] has an own entry named [toString]. *)
Fixpoint plain (v : value) : bool :=
  match v with
  | JArray items => forallb plain items
  | JObject fields =>
      negb (hasOwn "toString" fields)
      && forallb (fun kv => plain (snd kv)) fields
  | _ => true
  end.

(** [e?.message] of a caught value. *)
Definition message (e : thrown) : string :=
  match e with
  | ErrorObj m => m
  | TypeErrorObj c => typeErrorMessage c
  | HostRejection m => m
  end.

(** [s || d] on strings. *)
Definition orString (s d : string) : string :=
  if Str.isEmpty s then d else s.

End WithHost.
End Js.

(* ===================================================================== *)
(** * Effects: what a handler asks of the browser *)
(* ===================================================================== *)

Module Net.
Section WithHost.
Context {H : Host}.

(** [fetch(url, { method, headers, body })]; [body] holds the object handed
    to [JSON.stringify]. *)
Record request := {
  url : string;
  method : string;
  headers : list (string * string);
  body : option Js.value
}.

(** What the handler can observe of a [Response]. *)
Record response := {
  ok : bool;
  text : exc string;     (* await response.text() *)
  json : exc Js.value    (* await response.json() *)
}.

Inductive fetchResult :=
  | Rejected (e : thrown)        (* the promise of fetch rejects *)
  | Responded (r : response).

Inductive effect :=
  | PreventDefault
  | Fetch (r : request)
  | Confirm (question : string)
  | Alert (text : string).

Definition isFetch (e : effect) : bool :=
  match e with Fetch _ => true | _ => false end.

(** [env || fallback] for an environment entry. *)
Definition envOr (env : option string) (fallback : string) : string :=
  match env with
  | Some s => Js.orString s fallback
  | None => fallback
  end.

End WithHost.
End Net.

(* ===================================================================== *)
(** * The Index page (pages/index.tsx) *)
(* ===================================================================== *)

Module Index.
Import Js Net.
Section WithHost.
Context {H : Host}.

Definition API_URL : string :=
  Str.trim (envOr VITE_API_URL "http://127.0.0.1:8000").

Record urgencyEntry := { label : string; className : string }.

Definition urgencyConfig : list (string * urgencyEntry) :=
  [ ("emergency", {| label := "Emergency"; className := "bg-emergency text-white" |});
    ("urgent",    {| label := "Urgent";    className := "bg-urgent text-white" |});
    ("routine",   {| label := "Routine";   className := "bg-routine text-white" |});
    ("self-care", {| label := "Self-Care"; className := "bg-self-care text-white" |}) ].

Fixpoint configLookup (k : string) (cfg : list (string * urgencyEntry))
  : option urgencyEntry :=
  match cfg with
  | [] => None
  | (k', e) :: r => if String.eqb k k' then Some e else configLookup k r
  end.

(** The state of the component. *)
Record state := {
  symptoms : string;
  age : string;
  gender : string;
  duration : string;
  loading : bool;
  result : option value;      (* null until an analysis succeeds *)
  error : string
}.

Definition shapeError : thrown :=
  ErrorObj "Unexpected response shape from API (mite be json issue)".

(** The callback of [data.conditions.map]. *)
Definition normalizeCondition (c : value) : exc value :=
  n <- getProp c "name" ;;
  p1 <- getProp c "probability" ;;
  s1 <- toStringMethod (or p1 (JString "Low")) ;;
  p2 <- getProp c "probability" ;;
  s2 <- toStringMethod (or p2 (JString "low")) ;;
  d <- getProp c "description" ;;
  Return (JObject
    [ ("name", or n (JString "Unknown"));
      ("probability",
         JString (Str.toUpperCase (Str.charAt 0 (Str.trim s1))
                  ++ Str.toLowerCase (Str.slice 1 (Str.trim s2)))%string);
      ("description", or d (JString "")) ]).

(** [xs.map(f)] for a callback that may throw. *)
Fixpoint mapExc {A B} (f : A -> exc B) (xs : list A) : exc (list B) :=
  match xs with
  | [] => Return []
  | x :: r => y <- f x ;; ys <- mapExc f r ;; Return (y :: ys)
  end.

(** [o.k = v] once [o] is known to be an object. *)
Definition setProp (o : value) (k : string) (v : value) : value :=
  match o with
  | JObject fields => JObject (assign k v fields)
  | _ => o
  end.

(** Lines 135-148: the shape test and the normalisation of a parsed body. *)
Definition normalizeResponse (data : value) : exc value :=
  if negb (truthy data) then Throw shapeError else
  cs <- getProp data "conditions" ;;
  if negb (isArray cs) then Throw shapeError else
  rs <- getProp data "recommendations" ;;
  if negb (isArray rs) then Throw shapeError else
  match cs with
  | JArray items =>
      items' <- mapExc normalizeCondition items ;;
      Return (setProp data "conditions" (JArray items'))
  | _ => Throw shapeError
  end.

(** The body of the [try] block, given what [fetch] produced. *)
Definition analyze (net : fetchResult) : exc value :=
  match net with
  | Rejected e => Throw e
  | Responded r =>
      if negb (ok r) then
        err <- text r ;; Throw (ErrorObj (orString err "Analysis failed"))
      else
        data <- json r ;; normalizeResponse data
  end.

Definition analyzeRequest (st : state) : request :=
  {| url := (API_URL ++ "/api/analyze")%string;
     method := "POST";
     headers := [("Content-Type", "application/json")];
     body := Some (JObject
       [ ("symptoms", JString (Str.trim (symptoms st)));
         ("age", if Str.isEmpty (age st) then JUndefined
                 else JNumber (parseInt (age st)));
         ("gender", if Str.isEmpty (gender st) then JUndefined
                    else JString (gender st));
         ("duration", if Str.isEmpty (duration st) then JUndefined
                      else JString (duration st)) ]) |}.

(** [handleSubmit]: the state once the handler has finished and the
    effects it issued, in order. *)
Definition handleSubmit (st : state) (net : fetchResult) : state * list effect :=
  if Str.isEmpty (Str.trim (symptoms st)) then (st, [PreventDefault])
  else
    let st' :=
      match analyze net with
      | Return data =>
          {| symptoms := symptoms st; age := age st; gender := gender st;
             duration := duration st; loading := false;
             result := Some data; error := "" |}
      | Throw e =>
          {| symptoms := symptoms st; age := age st; gender := gender st;
             duration := duration st; loading := false;
             result := None;
             error := orString (message e)
                        "Unable to analyze symptoms. Is backend running?" |}
      end in
    (st', [PreventDefault; Fetch (analyzeRequest st)]).

(** Names every object inherits from [Object.prototype]. *)
Definition objectPrototypeKeys : list string :=
  [ "constructor"; "hasOwnProperty"; "isPrototypeOf"; "propertyIsEnumerable";
    "toLocaleString"; "toString"; "valueOf"; "__proto__";
    "__defineGetter__"; "__defineSetter__"; "__lookupGetter__";
    "__lookupSetter__" ].

(** The text of the urgency badge, lines 264-270:
    [urgencyConfig[result.urgency].label] followed by the fixed words.
    An inherited member has no [label]; a missing one is [undefined] and
    reading [className] from it throws. *)
Definition urgencyBadge (res : value) : exc string :=
  u <- getProp res "urgency" ;;
  k <- ToString u ;;
  match configLookup k urgencyConfig with
  | Some e => Return (label e ++ " Care Recommended")%string
  | None =>
      if existsb (String.eqb k) objectPrototypeKeys
      then Return " Care Recommended"
      else Throw (TypeErrorObj (ReadOfNullish "className"))
  end.

(** The probabilities the type [Probability] lists. *)
Definition isProbability (s : string) : bool :=
  String.eqb s "High" || String.eqb s "Medium" || String.eqb s "Low".

Definition isUrgency (s : string) : bool :=
  String.eqb s "emergency" || String.eqb s "urgent"
  || String.eqb s "routine" || String.eqb s "self-care".

(** [disabled={loading || !symptoms.trim()}] on the submit button. *)
Definition submitDisabled (st : state) : bool :=
  loading st || Str.isEmpty (Str.trim (symptoms st)).

(** Title case as the specification words it: first letter uppercase,
    remainder lowercase. *)
Definition titleCase (s : string) : string :=
  (Str.toUpperCase (Str.charAt 0 s) ++ Str.toLowerCase (Str.slice 1 s))%string.

(** The text spells high, medium or low, in any letter case. *)
Definition spellsProbability (s : string) : bool :=
  let l := Str.toLowerCase s in
  String.eqb l "high" || String.eqb l "medium" || String.eqb l "low".

(** The text [normalizeCondition] converts: [(c.probability || "Low").toString()]. *)
Definition rawProbability (c : value) : exc string :=
  toStringMethod (or (optProp c "probability") (JString "Low")).

(** A condition on which a second pass meets the same text: it can be
    normalised, and its probability text is ASCII and does not trim to
    the empty string. *)
Definition stableInput (c : value) : bool :=
  negb (isNullish c) &&
  match rawProbability c with
  | Return s => Str.isAscii s && negb (Str.isEmpty (Str.trim s))
  | Throw _ => false
  end.

(** [data.conditions] as a list, empty when it is not an array. *)
Definition conditionsOf (data : value) : list value :=
  match optProp data "conditions" with
  | JArray items => items
  | _ => []
  end.

(** The shape test of line 137 passes. *)
Definition hasShape (data : value) : bool :=
  isArray (optProp data "conditions")
  && isArray (optProp data "recommendations").

(** An element [normalizeCondition] can handle: it can be read, and its
    probability has a string. *)
Definition normalizable (c : value) : bool :=
  negb (isNullish c) && returns (rawProbability c).

(** [probabilityStyles], lines 94-98. *)
Definition probabilityStyles : list (string * string) :=
  [ ("High",
     "bg-probability-high/15 text-probability-high border-probability-high/30");
    ("Medium",
     "bg-probability-medium/15 text-probability-medium border-probability-medium/30");
    ("Low",
     "bg-probability-low/15 text-probability-low border-probability-low/30") ].

Fixpoint styleLookup (k : string) (styles : list (string * string))
  : option string :=
  match styles with
  | [] => None
  | (k', v) :: r => if String.eqb k k' then Some v else styleLookup k r
  end.

(** What [probabilityStyles[k] || probabilityStyles.Low] evaluates to: a
    style text, or a member every object inherits (truthy, so kept). *)
Inductive styleValue :=
  | StyleText (s : string)
  | InheritedMember (k : string).

Definition lowStyle : string :=
  match styleLookup "Low" probabilityStyles with
  | Some s => s
  | None => EmptyString
  end.

(** [safeStyle] of line 279. *)
Definition safeStyle (condition : value) : exc styleValue :=
  p <- getProp condition "probability" ;;
  k <- ToString p ;;
  match styleLookup k probabilityStyles with
  | Some s => Return (StyleText s)
  | None =>
      if existsb (String.eqb k) objectPrototypeKeys
      then Return (InheritedMember k)
      else Return (StyleText lowStyle)
  end.

End WithHost.
End Index.

(* ===================================================================== *)
(** * lib/api *)
(* ===================================================================== *)

Module Api.
Import Js Net.
Section WithHost.
Context {H : Host}.

Definition API_URL : string := envOr VITE_API_URL "http://localhost:8000".

(** A parameter with a default: the default is taken when the argument is
    omitted, that is [undefined]. *)
Definition defaultParam (arg dflt : value) : value :=
  match arg with JUndefined => dflt | _ => arg end.

Definition limitParam (limit : value) : value :=
  defaultParam limit (JNumber (numberOfZ 20)).

Definition skipParam (skip : value) : value :=
  defaultParam skip (JNumber (numberOfZ 0)).

Definition historyUrl (limit skip : value) : exc string :=
  l <- ToString (limitParam limit) ;;
  s <- ToString (skipParam skip) ;;
  Return (API_URL ++ "/api/history?limit=" ++ l ++ "&skip=" ++ s)%string.

(** [fetchHistory(limit = 20, skip = 0)]: the value of the promise and the
    requests issued. *)
Definition fetchHistory (limit skip : value) (net : fetchResult)
  : exc value * list effect :=
  match historyUrl limit skip with
  | Throw e => (Throw e, [])
  | Return u =>
      let req := {| url := u; method := "GET"; headers := []; body := None |} in
      (match net with
       | Rejected e => Throw e
       | Responded r =>
           if negb (ok r) then Throw (ErrorObj "Failed to fetch history")
           else json r
       end, [Fetch req])
  end.

Definition deleteUrl (id : value) : exc string :=
  s <- ToString id ;;
  Return (API_URL ++ "/api/history/" ++ s)%string.

(** [deleteHistory(id)] *)
Definition deleteHistory (id : value) (net : fetchResult)
  : exc value * list effect :=
  match deleteUrl id with
  | Throw e => (Throw e, [])
  | Return u =>
      let req := {| url := u; method := "DELETE"; headers := []; body := None |} in
      (match net with
       | Rejected e => Throw e
       | Responded r =>
           if negb (ok r) then Throw (ErrorObj "Delete failed")
           else json r
       end, [Fetch req])
  end.

End WithHost.
End Api.

(* ===================================================================== *)
(** * The History page *)
(* ===================================================================== *)

Module History.
Import Js Net.
Section WithHost.
Context {H : Host}.

(** The time value of [new Date(v)]; an array or object is first converted
    to a primitive, its string. *)
Definition newDate (v : value) : exc number :=
  match v with
  | JUndefined => Return numberNaN
  | JNull => Return (timeClip (numberOfZ 0))
  | JBool b => Return (timeClip (numberOfZ (if b then 1 else 0)))
  | JNumber n => Return (timeClip n)
  | JString s => Return (dateParse s)
  | JArray _ | JObject _ => s <- ToString v ;; Return (dateParse s)
  end.

(** [if (!isNaN(d.getTime())) return d.toLocaleString()] *)
Definition validDate (t : number) : option string :=
  if numberIsNaN t then None else Some (dateToLocaleString t).

(** The [for] loop of [safeDateFromDoc] over the remaining candidates. *)
Fixpoint scanDates (vals : list value) : exc string :=
  match vals with
  | [] => Return "Invalid Date"
  | v :: rest =>
      if negb (truthy v) then scanDates rest else
      asString <- (if typeofIsString v
                   then t <- newDate v ;; Return (validDate t)
                   else Return None) ;;
      match asString with
      | Some out => Return out
      | None =>
          let payload := optProp v "$date" in
          if truthy payload then
            t <- newDate payload ;;
            match validDate t with
            | Some out => Return out
            | None => scanDates rest
            end
          else scanDates rest
      end
  end.

Definition candidates (doc : value) : list value :=
  [ optProp doc "_created_at";
    optProp doc "created_at";
    optProp doc "createdAt";
    optProp (optProp doc "result") "_created_at" ].

Definition safeDateFromDoc (doc : value) : exc string :=
  scanDates (candidates doc).

(** What the callback of [items.map] extracts from one item before it
    builds the markup. *)
Record itemView := {
  createdAtStr : string;
  symptoms : value;
  age : value;
  gender : value;
  summary : value;
  recs : list value;
  id : value;
  conditions : list value   (* the list the Conditions block walks *)
}.

Definition arrayItems (v : value) : list value :=
  match v with JArray l => l | _ => [] end.

(** Lines 107-120 of the callback of [items.map]: the statements before
    the markup is built ([itemCallback] below is the whole callback). *)
Definition viewItem (it : value) : exc itemView :=
  let input := coalesce (optProp it "input") (JObject []) in
  let result := coalesce (optProp it "result") (JObject []) in
  created <- safeDateFromDoc it ;;
  s <- getProp input "symptoms" ;;
  a <- getProp input "age" ;;
  g <- getProp input "gender" ;;
  sm <- getProp result "summary" ;;
  rc <- getProp result "recommendations" ;;
  i <- getProp it "_id" ;;
  cs <- getProp result "conditions" ;;
  Return {| createdAtStr := created;
            symptoms := coalesce s (JString "N/A");
            age := coalesce a (JString "N/A");
            gender := coalesce g (JString "N/A");
            summary := coalesce sm (JString "");
            recs := if isArray rc then arrayItems rc else [];
            id := or i (JString "");
            conditions := if isArray cs then arrayItems cs else [] |}.

(** The array handed to [setItems] after the first load. *)
Definition itemsOf (data : value) : exc value :=
  i <- getProp data "items" ;;
  if isArray i then Return i
  else if isArray data then Return data
  else Return (coalesce (optProp data "items") (JArray [])).

(** The effect run on mount: [fetchHistory(50, 0)]. *)
Definition loadHistory (net : fetchResult) : exc value * list effect :=
  let (r, eff) := Api.fetchHistory (JNumber (numberOfZ 50)) (JNumber (numberOfZ 0)) net in
  (data <- r ;; itemsOf data, eff).

(** [String(it._id) !== String(id)] *)
Definition keeps (id it : value) : exc bool :=
  x <- getProp it "_id" ;;
  a <- ToString x ;;
  b <- ToString id ;;
  Return (negb (String.eqb a b)).

(** [s.filter(p)] for a callback that may throw. *)
Fixpoint filterExc {A} (p : A -> exc bool) (xs : list A) : exc (list A) :=
  match xs with
  | [] => Return []
  | x :: r =>
      b <- p x ;;
      ys <- filterExc p r ;;
      Return (if b then x :: ys else ys)
  end.

(** [handleDelete(id)]: [confirmed] is the answer to the dialog and
    [items] the list the updater given to [setItems] receives.  The
    result is the list after the handler and its state update ([Throw]
    when the updater throws) and the effects issued. *)
Definition handleDelete (id : value) (confirmed : bool) (net : fetchResult)
  (items : list value) : exc (list value) * list effect :=
  let ask := Confirm "Delete this entry?" in
  if negb confirmed then (Return items, [ask])
  else
    let (r, eff) := Api.deleteHistory id net in
    match r with
    | Return _ => (filterExc (keeps id) items, ask :: eff)
    | Throw e =>
        (Return items,
         ask :: eff ++ [Alert ("Delete failed: " ++ message e)%string])
    end.

(** [String(it._id)] *)
Definition idString (it : value) : exc string :=
  x <- getProp it "_id" ;; ToString x.

Definition hasId (sid : string) (it : value) : bool :=
  match idString it with
  | Return k => String.eqb k sid
  | Throw _ => false
  end.

(** The display string one candidate stands for, if it holds a valid date:
    a non-empty string that parses, or a wrapper whose [$date] is truthy
    and gives a valid date. *)
Definition candidateDate (v : value) : option string :=
  match v with
  | JString s => if Str.isEmpty s then None else validDate (dateParse s)
  | JObject fields =>
      match lookup "$date" fields with
      | Some payload =>
          if truthy payload then
            match newDate payload with
            | Return t => validDate t
            | Throw _ => None
            end
          else None
      | None => None
      end
  | _ => None
  end.

(** [l1] is [l2] with some elements left out, the others in their order. *)
Inductive Subsequence {A : Type} : list A -> list A -> Prop :=
  | sub_nil : Subsequence [] []
  | sub_keep x l1 l2 : Subsequence l1 l2 -> Subsequence (x :: l1) (x :: l2)
  | sub_drop x l1 l2 : Subsequence l1 l2 -> Subsequence l1 (x :: l2).

Definition isAlert (e : effect) : bool :=
  match e with Alert _ => true | _ => false end.



(** What [c.probability && <span>...</span>] leaves in a line: the badge,
    or the falsy value itself. *)
Inductive probabilitySlot :=
  | Badge (p : value)
  | Bare (v : value).

Record conditionLine := {
  lineName : value;
  lineProbability : probabilitySlot;
  lineDescription : value
}.

(** The callback of [result.conditions.map], lines 162-172. *)
Definition conditionLineOf (c : value) : exc conditionLine :=
  n <- getProp c "name" ;;
  p <- getProp c "probability" ;;
  slot <- (if truthy p
           then shown <- getProp c "probability" ;; Return (Badge shown)
           else Return (Bare p)) ;;
  d <- getProp c "description" ;;
  Return {| lineName := n; lineProbability := slot; lineDescription := d |}.

(** The element the callback returns, as far as the item decides it. *)
Record card := {
  cardKey : string;
  cardDate : string;
  cardAge : value;
  cardGender : value;
  cardHeading : value;             (* summary || symptoms *)
  cardRecs : list value;
  cardConditions : list conditionLine
}.

(** The whole callback of [items.map], lines 106-178: the extraction,
    then the markup.  The children are evaluated first, the walk over
    the conditions among them; the element is created last, and there
    its key is turned into a string (['' + key]). *)
Definition itemCallback (it : value) : exc card :=
  view <- viewItem it ;;
  lines <- Index.mapExc conditionLineOf (conditions view) ;;
  k <- ToString (id view) ;;
  Return {| cardKey := k;
            cardDate := createdAtStr view;
            cardAge := age view;
            cardGender := gender view;
            cardHeading := or (summary view) (symptoms view);
            cardRecs := recs view;
            cardConditions := lines |}.

End WithHost.
End History.

(* ===================================================================== *)
(** * components/ui/ThemeToggle.tsx *)
(* ===================================================================== *)

Module Theme.

Inductive theme := Light | Dark.

(** The string a theme is in the source. *)
Definition themeName (t : theme) : string :=
  match t with Light => "light" | Dark => "dark" end.

(** [localStorage]: [getItem] gives [None] for null. *)
Definition storage := string -> option string.

Definition getItem (k : string) (s : storage) : option string := s k.

Definition setItem (k v : string) (s : storage) : storage :=
  fun k' => if String.eqb k' k then Some v else s k'.

(** [classList.add(token)]: a token already present is not added again. *)
Definition classAdd (token : string) (l : list string) : list string :=
  if existsb (String.eqb token) l then l else l ++ [token].

(** [classList.remove(token)] *)
Definition classRemove (token : string) (l : list string) : list string :=
  filter (fun c => negb (String.eqb token c)) l.

(** What the component touches: the storage, [window.matchMedia] ([None]
    where the browser has none, else the [matches] of a query) and the
    class list of the document element. *)
Record browser := {
  localStorage : storage;
  matchMedia : option (string -> bool);
  classList : list string
}.

(** The initialiser of [useState], lines 4-10. *)
Definition initialTheme (b : browser) : theme :=
  let stored := getItem "theme" (localStorage b) in
  let preferred :=
    match matchMedia b with
    | Some matches => if matches "(prefers-color-scheme: dark)" then Dark else Light
    | None => Light
    end in
  match stored with
  | Some v =>
      if String.eqb v "dark" then Dark
      else if String.eqb v "light" then Light
      else preferred
  | None => preferred
  end.

(** The effect of lines 12-19, run on mount and after every change of
    the theme.  The storage is taken to be available and to have room:
    [setItem] does not throw. *)
Definition applyTheme (t : theme) (b : browser) : browser :=
  {| localStorage := setItem "theme" (themeName t) (localStorage b);
     matchMedia := matchMedia b;
     classList := match t with
                  | Dark => classAdd "dark" (classList b)
                  | Light => classRemove "dark" (classList b)
                  end |}.

(** The updater of [onClick]. *)
Definition toggle (t : theme) : theme :=
  match t with Dark => Light | Light => Dark end.

(** The text of the button. *)
Definition buttonLabel (t : theme) : string :=
  match t with Dark => "Light" | Light => "Dark" end.

End Theme.

(* ===================================================================== *)
(** * A small host to run the definitions on

    Integral numbers with NaN, decimal printing, a [Date.parse] that knows
    two instants, and no environment entry. *)
(* ===================================================================== *)

Module Sample.

Definition printZ (z : Z) : string := NilZero.string_of_int (Z.to_int z).

Definition readZ (s : string) : option Z :=
  match NilZero.int_of_string s with
  | Some i => Some (Z.of_int i)
  | None => None
  end.

Definition clip (n : option Z) : option Z :=
  match n with
  | Some z => if (Z.abs z <=? 8640000000000000)%Z then Some z else None
  | None => None
  end.

Definition parseInstant (s : string) : option Z :=
  if String.eqb s "1970-01-01T00:00:00.000Z" then Some 0%Z
  else if String.eqb s "2024-01-01T00:00:00.000Z" then Some 1704067200000%Z
  else None.

Definition printNumber (n : option Z) : string :=
  match n with Some z => printZ z | None => "NaN" end.

Definition host : Host := {|
  number := option Z;
  numberToBoolean := fun n =>
    match n with Some z => negb (z =? 0)%Z | None => false end;
  numberToString := printNumber;
  numberIsNaN := fun n => match n with Some _ => false | None => true end;
  numberOfZ := Some;
  numberNaN := None;
  parseInt := readZ;
  dateParse := parseInstant;
  timeClip := clip;
  dateToLocaleString := fun t => ("t=" ++ printNumber t)%string;
  typeErrorMessage := fun c =>
    match c with
    | ReadOfNullish k =>
        ("Cannot read properties of undefined (reading '" ++ k ++ "')")%string
    | NotAFunction k => (k ++ " is not a function")%string
    | NotPrimitive => "Cannot convert object to primitive value"
    end;
  VITE_API_URL := None
|}.

End Sample.

(* ===================================================================== *)
(** * Facts about the string operations *)
(* ===================================================================== *)

Module StrFacts.
Import Str.

Ltac by_cases_on_char c :=
  destruct c as [[] [] [] [] [] [] [] []]; reflexivity.

Lemma ws_upperChar c : isWhiteSpace (upperChar c) = isWhiteSpace c.
Proof. by_cases_on_char c. Qed.

Lemma ws_lowerChar c : isWhiteSpace (lowerChar c) = isWhiteSpace c.
Proof. by_cases_on_char c. Qed.

Lemma upperChar_idem c : upperChar (upperChar c) = upperChar c.
Proof. by_cases_on_char c. Qed.

Lemma lowerChar_idem c : lowerChar (lowerChar c) = lowerChar c.
Proof. by_cases_on_char c. Qed.

Lemma lowerChar_upperChar c : lowerChar (upperChar c) = lowerChar c.
Proof. by_cases_on_char c. Qed.

Lemma upperChar_lowerChar c : upperChar (lowerChar c) = upperChar c.
Proof. by_cases_on_char c. Qed.

Lemma mapChars_twice f g s :
  mapChars f (mapChars g s) = mapChars (fun c => f (g c)) s.
Proof. induction s as [|c r IH]; simpl; [reflexivity | now rewrite IH]. Qed.

Lemma mapChars_ext f g s :
  (forall c, f c = g c) -> mapChars f s = mapChars g s.
Proof.
  intros E. induction s as [|c r IH]; simpl; [reflexivity|].
  now rewrite E, IH.
Qed.

Lemma toLowerCase_idem s : toLowerCase (toLowerCase s) = toLowerCase s.
Proof.
  unfold toLowerCase. rewrite mapChars_twice.
  apply mapChars_ext, lowerChar_idem.
Qed.

Lemma trimStart_startsClean s : startsClean (trimStart s) = true.
Proof.
  induction s as [|c r IH]; simpl; [reflexivity|].
  destruct (isWhiteSpace c) eqn:W; [exact IH | simpl; now rewrite W].
Qed.

Lemma trimStart_clean s : startsClean s = true -> trimStart s = s.
Proof.
  destruct s as [|c r]; simpl; [reflexivity|].
  now destruct (isWhiteSpace c).
Qed.

Lemma trimEnd_idem s : trimEnd (trimEnd s) = trimEnd s.
Proof.
  induction s as [|c r IH]; simpl; [reflexivity|].
  destruct (trimEnd r) as [|c' r'] eqn:E.
  - destruct (isWhiteSpace c) eqn:W; simpl; [reflexivity | now rewrite W].
  - simpl in *. now rewrite IH.
Qed.

Lemma trimEnd_startsClean s :
  startsClean s = true -> startsClean (trimEnd s) = true.
Proof.
  destruct s as [|c r]; simpl; [reflexivity|]. intros W.
  destruct (isWhiteSpace c) eqn:Wc; [discriminate|].
  destruct (trimEnd r); simpl; now rewrite Wc.
Qed.

Lemma trim_startsClean s : startsClean (trim s) = true.
Proof. apply trimEnd_startsClean, trimStart_startsClean. Qed.

Lemma trimEnd_trim s : trimEnd (trim s) = trim s.
Proof. apply trimEnd_idem. Qed.

Lemma trim_idem s : trim (trim s) = trim s.
Proof.
  unfold trim at 1. rewrite trimStart_clean by apply trim_startsClean.
  apply trimEnd_trim.
Qed.

Section ShapePreserving.
Variables f g : ascii -> ascii.
Hypothesis ws_f : forall c, isWhiteSpace (f c) = isWhiteSpace c.
Hypothesis ws_g : forall c, isWhiteSpace (g c) = isWhiteSpace c.

Lemma trimEnd_mapChars s : trimEnd (mapChars g s) = mapChars g (trimEnd s).
Proof.
  induction s as [|c r IH]; simpl; [reflexivity|].
  rewrite IH. destruct (trimEnd r); simpl; [|reflexivity].
  rewrite ws_g. now destruct (isWhiteSpace c).
Qed.

Lemma trimEnd_mapHeadTail s :
  trimEnd (mapHeadTail f g s) = mapHeadTail f g (trimEnd s).
Proof.
  destruct s as [|c r]; simpl; [reflexivity|].
  rewrite trimEnd_mapChars. destruct (trimEnd r); simpl; [|reflexivity].
  rewrite ws_f. now destruct (isWhiteSpace c).
Qed.

Lemma startsClean_mapHeadTail s :
  startsClean (mapHeadTail f g s) = startsClean s.
Proof. destruct s; simpl; [reflexivity | now rewrite ws_f]. Qed.

Lemma trim_mapHeadTail s :
  startsClean s = true -> trimEnd s = s ->
  trim (mapHeadTail f g s) = mapHeadTail f g s.
Proof.
  intros C E. unfold trim. rewrite trimStart_clean.
  - now rewrite trimEnd_mapHeadTail, E.
  - now rewrite startsClean_mapHeadTail.
Qed.
End ShapePreserving.

Lemma isEmpty_true s : isEmpty s = true <-> s = EmptyString.
Proof. destruct s; simpl; split; congruence. Qed.

Lemma isEmpty_false s : isEmpty s = false <-> s <> EmptyString.
Proof. destruct s; simpl; split; congruence. Qed.

End StrFacts.

(* ===================================================================== *)
(** * Facts about run-time values *)
(* ===================================================================== *)

Module JsFacts.
Import Js.
Section WithHost.
Context {H : Host}.

(** Induction on values that reaches into arrays and objects. *)
Lemma value_nested_ind (P : value -> Prop) :
  P JUndefined -> P JNull ->
  (forall b, P (JBool b)) -> (forall n, P (JNumber n)) ->
  (forall s, P (JString s)) ->
  (forall l, Forall P l -> P (JArray l)) ->
  (forall f, Forall (fun kv => P (snd kv)) f -> P (JObject f)) ->
  forall v, P v.
Proof.
  intros HU HN HB HNum HS HA HO. fix IH 1.
  intros [ | | b | n | s | l | f];
    [exact HU | exact HN | apply HB | apply HNum | apply HS | | ].
  - apply HA. induction l as [|x r IHl]; constructor; [apply IH | exact IHl].
  - apply HO. induction f as [|[k x] r IHf]; constructor; [apply IH | exact IHf].
Qed.

Lemma getProp_optProp v k :
  isNullish v = false -> getProp v k = Return (optProp v k).
Proof. destruct v; simpl; intros E; try discriminate; reflexivity. Qed.

Lemma lookup_plain k f x :
  forallb (fun kv => plain (snd kv)) f = true ->
  lookup k f = Some x -> plain x = true.
Proof.
  induction f as [|[k' v] r IH]; simpl; [discriminate|].
  intros A L. apply andb_prop in A as [A1 A2].
  destruct (String.eqb k k'); [now inversion L; subst | now apply IH].
Qed.

Lemma plain_optProp v k : plain v = true -> plain (optProp v k) = true.
Proof.
  destruct v as [ | | b | n | s | l | f]; simpl; try reflexivity.
  intros P. apply andb_prop in P as [_ P].
  destruct (lookup k f) as [x|] eqn:L; [|reflexivity].
  eapply lookup_plain; eassumption.
Qed.

Lemma joinWith_returns conv l :
  Forall (fun x => exists s, conv x = Return s) l ->
  exists s, joinWith conv l = Return s.
Proof.
  induction 1 as [|x r [sx Hx] _ [sr Hr]]; simpl; [eauto|].
  assert (E : exists s, elementString conv x = Return s)
    by (destruct x; simpl; eauto).
  destruct E as [s0 ->]. simpl.
  destruct r; [eauto|]. rewrite Hr. simpl. eauto.
Qed.

(** A plain value always has a string. *)
Lemma ToString_plain v : plain v = true -> exists s, ToString v = Return s.
Proof.
  induction v as [ | | b | n | s | l IH | f IH] using value_nested_ind;
    simpl; intros P; eauto.
  - destruct b; eauto.
  - apply joinWith_returns. rewrite forallb_forall in P.
    rewrite Forall_forall in *. intros x Hx. apply IH; auto.
  - apply andb_prop in P as [P _]. apply negb_true_iff in P.
    rewrite P. eauto.
Qed.

Lemma truthy_or a b : truthy a = true -> or a b = a.
Proof. unfold or. now intros ->. Qed.

Lemma falsy_or a b : truthy a = false -> or a b = b.
Proof. unfold or. now intros ->. Qed.

Lemma truthy_not_nullish v : truthy v = true -> isNullish v = false.
Proof. destruct v; simpl; congruence. Qed.

End WithHost.
End JsFacts.

(* ===================================================================== *)
(** * The Index page: properties *)
(* ===================================================================== *)

Module IndexProps.
Import Js Net Index JsFacts.
Section WithHost.
Context {H : Host}.

Lemma titleCase_mapHeadTail s :
  titleCase s = Str.mapHeadTail Str.upperChar Str.lowerChar s.
Proof. destruct s; reflexivity. Qed.

Lemma titleCase_empty s : titleCase s = EmptyString <-> s = EmptyString.
Proof. destruct s; simpl; split; intros E; try discriminate; reflexivity. Qed.

Lemma titleCase_idem s : titleCase (titleCase s) = titleCase s.
Proof.
  rewrite !titleCase_mapHeadTail. destruct s as [|c r]; simpl; [reflexivity|].
  rewrite StrFacts.upperChar_idem. f_equal. apply StrFacts.toLowerCase_idem.
Qed.

Lemma toLowerCase_titleCase s :
  Str.toLowerCase (titleCase s) = Str.toLowerCase s.
Proof.
  rewrite titleCase_mapHeadTail. unfold Str.toLowerCase.
  destruct s as [|c r]; simpl; [reflexivity|].
  rewrite StrFacts.lowerChar_upperChar. f_equal. apply StrFacts.toLowerCase_idem.
Qed.

Lemma titleCase_toLowerCase s : titleCase (Str.toLowerCase s) = titleCase s.
Proof.
  rewrite !titleCase_mapHeadTail. unfold Str.toLowerCase.
  destruct s as [|c r]; simpl; [reflexivity|].
  rewrite StrFacts.upperChar_lowerChar. f_equal. apply StrFacts.toLowerCase_idem.
Qed.

Lemma trim_titleCase_trim s :
  Str.trim (titleCase (Str.trim s)) = titleCase (Str.trim s).
Proof.
  rewrite titleCase_mapHeadTail. apply StrFacts.trim_mapHeadTail.
  - apply StrFacts.ws_upperChar.
  - apply StrFacts.ws_lowerChar.
  - apply StrFacts.trim_startsClean.
  - apply StrFacts.trimEnd_trim.
Qed.

(** A title-cased text is High, Medium or Low exactly when the text
    spells one of them. *)
Lemma isProbability_titleCase s :
  isProbability (titleCase s) = true <-> spellsProbability s = true.
Proof.
  unfold isProbability, spellsProbability. rewrite !orb_true_iff, !String.eqb_eq.
  split.
  - intros E. rewrite <- toLowerCase_titleCase.
    destruct E as [[-> | ->] | ->]; auto.
  - intros E. rewrite <- titleCase_toLowerCase.
    destruct E as [[-> | ->] | ->]; auto.
Qed.

Lemma or_twice a b : or (or a b) b = or a b.
Proof.
  unfold or. destruct (truthy a) eqn:E; [now rewrite E|].
  now destruct (truthy b).
Qed.

(** What [normalizeCondition] builds from a condition it can read. *)
Lemma normalizeCondition_value c s :
  isNullish c = false -> rawProbability c = Return s ->
  normalizeCondition c = Return (JObject
    [ ("name", or (optProp c "name") (JString "Unknown"));
      ("probability", JString (titleCase (Str.trim s)));
      ("description", or (optProp c "description") (JString "")) ]).
Proof.
  intros N R. unfold normalizeCondition, rawProbability in *.
  rewrite !getProp_optProp by exact N. simpl.
  destruct (truthy (optProp c "probability")) eqn:T.
  - rewrite !truthy_or in * by exact T. rewrite R. simpl. reflexivity.
  - rewrite !falsy_or in * by exact T. simpl in *. now inversion R.
Qed.

Lemma falsy_probability_is_Low c s :
  truthy (optProp c "probability") = false -> rawProbability c = Return s ->
  titleCase (Str.trim s) = "Low".
Proof.
  unfold rawProbability. intros T R. rewrite falsy_or in R by exact T.
  simpl in R. now inversion R.
Qed.

Lemma stableInput_normalizes_to_fixpoint c :
  stableInput c = true ->
  exists c1, normalizeCondition c = Return c1
             /\ normalizeCondition c1 = Return c1.
Proof.
  unfold stableInput. intros S. apply andb_prop in S as [N S].
  apply negb_true_iff in N.
  destruct (rawProbability c) as [s|] eqn:R; [|discriminate].
  apply andb_prop in S as [_ E]. apply negb_true_iff in E.
  eexists. split; [apply (normalizeCondition_value _ _ N R)|].
  match goal with
  | |- normalizeCondition ?c1 = _ =>
      assert (R1 : rawProbability c1 = Return (titleCase (Str.trim s)))
  end.
  { unfold rawProbability. cbn [optProp lookup String.eqb Ascii.eqb Bool.eqb].
    rewrite truthy_or; [reflexivity|]. simpl.
    destruct (titleCase (Str.trim s)) eqn:T; [|reflexivity].
    apply (proj1 (titleCase_empty _)) in T. now rewrite T in E. }
  rewrite (normalizeCondition_value (JObject _) _ eq_refl R1).
  cbn [optProp lookup String.eqb Ascii.eqb Bool.eqb].
  now rewrite !or_twice, trim_titleCase_trim, titleCase_idem.
Qed.

Lemma mapExc_fixpoints cs :
  forallb stableInput cs = true ->
  exists cs1, mapExc normalizeCondition cs = Return cs1
              /\ mapExc normalizeCondition cs1 = Return cs1.
Proof.
  induction cs as [|c r IH]; simpl; [eauto|]. intros S.
  apply andb_prop in S as [Sc Sr].
  destruct (stableInput_normalizes_to_fixpoint c Sc) as (c1 & E1 & E2).
  destruct (IH Sr) as (r1 & F1 & F2).
  exists (c1 :: r1). rewrite E1. simpl. rewrite F1. simpl.
  now rewrite E2, F2.
Qed.

Lemma lookup_assign_same k v f : lookup k (assign k v f) = Some v.
Proof.
  induction f as [|[k' v'] r IH]; simpl.
  - now rewrite String.eqb_refl.
  - destruct (String.eqb k k') eqn:E; simpl; now rewrite E.
Qed.

Lemma lookup_assign_other k k' v f :
  String.eqb k' k = false -> lookup k' (assign k v f) = lookup k' f.
Proof.
  intros N. induction f as [|[k0 v0] r IH]; simpl.
  - now rewrite N.
  - destruct (String.eqb k k0) eqn:E; simpl.
    + apply String.eqb_eq in E. subst. now rewrite N.
    + now rewrite IH.
Qed.

Lemma assign_twice k v w f : assign k v (assign k w f) = assign k v f.
Proof.
  induction f as [|[k' v'] r IH]; simpl.
  - now rewrite String.eqb_refl.
  - destruct (String.eqb k k') eqn:E; simpl; rewrite E; [reflexivity|].
    now rewrite IH.
Qed.

(** A body that passes the shape test is an object. *)
Lemma hasShape_object data :
  hasShape data = true ->
  exists f items rs,
    data = JObject f
    /\ lookup "conditions" f = Some (JArray items)
    /\ lookup "recommendations" f = Some (JArray rs).
Proof.
  unfold hasShape. intros S. apply andb_prop in S as [C R].
  destruct data as [ | | b | n | s | l | f]; try discriminate.
  simpl in *. exists f.
  destruct (lookup "conditions" f) as [[ | | | | | items | ]|]; try discriminate.
  destruct (lookup "recommendations" f) as [[ | | | | | rs | ]|]; try discriminate.
  eauto.
Qed.

Lemma normalizeResponse_shaped f items rs :
  lookup "conditions" f = Some (JArray items) ->
  lookup "recommendations" f = Some (JArray rs) ->
  normalizeResponse (JObject f)
  = (items' <- mapExc normalizeCondition items ;;
     Return (JObject (assign "conditions" (JArray items') f))).
Proof.
  intros C R. unfold normalizeResponse. simpl. now rewrite C, R.
Qed.

Lemma normalizeResponse_rejects data :
  hasShape data = false -> normalizeResponse data = Throw shapeError.
Proof.
  unfold hasShape, normalizeResponse. intros S.
  destruct (truthy data) eqn:T; [|reflexivity]. simpl.
  rewrite getProp_optProp by now apply truthy_not_nullish. simpl.
  destruct (isArray (optProp data "conditions")); [|reflexivity].
  simpl in *. rewrite getProp_optProp by now apply truthy_not_nullish. simpl.
  now rewrite S.
Qed.

(** The inputs the specification lists for the probability. *)
Example listed_probabilities_normalized :
  map (fun p => normalizeCondition (JObject [ ("probability", p) ]))
      [ JString "high"; JString "HIGH"; JString " Medium "; JString "low";
        JString "unknown"; JString ""; JNull ]
  = map (fun s => Return (JObject [ ("name", JString "Unknown");
                                    ("probability", JString s);
                                    ("description", JString "") ]))
      [ "High"; "High"; "Medium"; "Low"; "Unknown"; "Low"; "Low" ].
Proof. reflexivity. Qed.

(** A null element of [conditions] stops the whole normalisation. *)
Example null_condition_throws :
  normalizeCondition JNull = Throw (TypeErrorObj (ReadOfNullish "name")).
Proof. reflexivity. Qed.

(** For the four values of [Urgency] the badge has its label. *)
Lemma recognized_urgency_has_badge res u :
  isNullish res = false -> optProp res "urgency" = JString u ->
  isUrgency u = true ->
  exists e, configLookup u urgencyConfig = Some e
            /\ urgencyBadge res = Return (label e ++ " Care Recommended")%string.
Proof.
  intros N U R. unfold urgencyBadge. rewrite getProp_optProp by exact N.
  rewrite U. simpl. unfold isUrgency in R.
  rewrite !orb_true_iff, !String.eqb_eq in R.
  destruct R as [[[-> | ->] | ->] | ->]; eexists; split; reflexivity.
Qed.

(** C1, as amended.  For a condition element that can be read, the
    normalised probability is the raw value ([c.probability], or "Low"
    when that is falsy) converted to a string, trimmed and title-cased.
    It is exactly "Low" when the raw value is falsy (absent, null, the
    empty string), and for ASCII text it is one of High, Medium, Low
    exactly when the trimmed text spells high, medium or low in some
    letter case; any other text keeps its title-cased form. *)
Theorem probability_normalized_to_title_case c s :
  isNullish c = false -> rawProbability c = Return s ->
  exists c',
    normalizeCondition c = Return c'
    /\ optProp c' "probability" = JString (titleCase (Str.trim s))
    /\ (truthy (optProp c "probability") = false ->
        titleCase (Str.trim s) = "Low")
    /\ (Str.isAscii s = true ->
        (isProbability (titleCase (Str.trim s)) = true
         <-> spellsProbability (Str.trim s) = true)).
Proof.
  intros N R. eexists. split; [apply (normalizeCondition_value _ _ N R)|].
  split; [reflexivity|]. split.
  - intros T. apply (falsy_probability_is_Low c s T R).
  - intros _. apply isProbability_titleCase.
Qed.

(** C2: the code at a response whose urgency is not one of the four
    values, and at one without urgency.  The response passes the shape
    test unchanged into the result, and the badge then reads [className]
    from a missing entry of [urgencyConfig]. *)
Theorem unrecognized_urgency_reaches_badge :
  let st := {| symptoms := "fever"; age := ""; gender := ""; duration := "";
               loading := false; result := None; error := "" |} in
  let reply data :=
    Responded {| ok := true; text := Return ""; json := Return data |} in
  let critical := JObject [ ("conditions", JArray []);
                            ("recommendations", JArray []);
                            ("urgency", JString "critical") ] in
  let missing := JObject [ ("conditions", JArray []);
                           ("recommendations", JArray []) ] in
  result (fst (handleSubmit st (reply critical))) = Some critical
  /\ urgencyBadge critical = Throw (TypeErrorObj (ReadOfNullish "className"))
  /\ result (fst (handleSubmit st (reply missing))) = Some missing
  /\ urgencyBadge missing = Throw (TypeErrorObj (ReadOfNullish "className")).
Proof. repeat split; reflexivity. Qed.

(** C3.  When the form is submitted with symptoms (ASCII text that does
    not trim to the empty string), the reply is ok and its parsed body
    lacks [conditions] as an array or [recommendations] as an array (a
    null body included), [handleSubmit] ends with the shape error in
    [error] and no result. *)
Theorem malformed_response_sets_no_result st r data :
  Str.isAscii (symptoms st) = true ->
  Str.isEmpty (Str.trim (symptoms st)) = false ->
  ok r = true -> json r = Return data ->
  hasShape data = false ->
  let st' := fst (handleSubmit st (Responded r)) in
  result st' = None
  /\ error st' = "Unexpected response shape from API (mite be json issue)"
  /\ loading st' = false.
Proof.
  intros _ S O J B. unfold handleSubmit. rewrite S. unfold analyze.
  rewrite O, J. simpl. rewrite (normalizeResponse_rejects data B).
  simpl. auto.
Qed.

(** C6.  When the symptoms trim to the empty string, [handleSubmit]
    returns right after [preventDefault]: the state is untouched and no
    request is among its effects; the submit button is disabled too. *)
Theorem empty_symptoms_issue_no_request st net :
  Str.trim (symptoms st) = EmptyString ->
  handleSubmit st net = (st, [PreventDefault])
  /\ existsb isFetch (snd (handleSubmit st net)) = false
  /\ submitDisabled st = true.
Proof.
  intros E. unfold handleSubmit, submitDisabled. rewrite E. simpl.
  repeat split; apply orb_true_r.
Qed.

(** C9, as amended.  On a response whose conditions all have an ASCII
    probability text that does not trim to the empty string, the
    normalisation reaches a fixed point at once: the normalised list of
    conditions is mapped to itself, and normalising the normalised
    response gives it back. *)
Theorem normalization_idempotent_on_stable_conditions data :
  hasShape data = true ->
  forallb stableInput (conditionsOf data) = true ->
  exists data1,
    normalizeResponse data = Return data1
    /\ mapExc normalizeCondition (conditionsOf data1)
       = Return (conditionsOf data1)
    /\ normalizeResponse data1 = Return data1.
Proof.
  intros S St. destruct (hasShape_object data S) as (f & items & rs & -> & C & R).
  unfold conditionsOf in St. simpl in St. rewrite C in St.
  destruct (mapExc_fixpoints items St) as (items1 & M1 & M2).
  exists (JObject (assign "conditions" (JArray items1) f)).
  assert (C1 : lookup "conditions" (assign "conditions" (JArray items1) f)
               = Some (JArray items1)) by apply lookup_assign_same.
  assert (R1 : lookup "recommendations" (assign "conditions" (JArray items1) f)
               = Some (JArray rs))
    by (rewrite lookup_assign_other; [exact R | reflexivity]).
  split; [|split].
  - rewrite (normalizeResponse_shaped f items rs C R), M1. reflexivity.
  - unfold conditionsOf. simpl. rewrite C1. exact M2.
  - rewrite (normalizeResponse_shaped _ items1 rs C1 R1), M2. simpl.
    now rewrite assign_twice.
Qed.

End WithHost.

(** C1 does not hold as the specification states it: "unknown" is
    normalised to "Unknown", which is neither Low nor any of the three
    probabilities. *)
Lemma unknown_probability_is_not_coerced :
  let c := JObject [ ("name", JString "Flu");
                     ("probability", JString "unknown");
                     ("description", JString "") ] in
  normalizeCondition (H := Sample.host) c
  = Return (JObject [ ("name", JString "Flu");
                      ("probability", JString "Unknown");
                      ("description", JString "") ])
  /\ isProbability "Unknown" = false
  /\ "Unknown" <> "Low".
Proof. split; [reflexivity | split; [reflexivity | discriminate]]. Qed.

(** The theorem at a padded, lower-case "medium". *)
Lemma probability_normalized_to_title_case_witness :
  let c := JObject (H := Sample.host) [ ("probability", JString " Medium ") ] in
  isNullish c = false
  /\ rawProbability c = Return " Medium "
  /\ exists c', normalizeCondition c = Return c'
               /\ optProp c' "probability" = JString "Medium".
Proof.
  split; [reflexivity|]. split; [reflexivity|].
  destruct (probability_normalized_to_title_case (H := Sample.host)
              (JObject [ ("probability", JString " Medium ") ]) " Medium "
              eq_refl eq_refl) as (c' & E & P & _).
  exists c'. split; [exact E | exact P].
Defined.

(** The theorem at a body whose [conditions] is a string. *)
Lemma malformed_response_sets_no_result_witness :
  let st := {| symptoms := "fever"; age := ""; gender := ""; duration := "";
               loading := false; result := None; error := "" |} in
  let r := {| ok := true; text := Return "";
              json := Return (JObject (H := Sample.host)
                                [ ("conditions", JString "none") ]) |} in
  result (fst (handleSubmit st (Responded r))) = None
  /\ error (fst (handleSubmit st (Responded r)))
     = "Unexpected response shape from API (mite be json issue)".
Proof.
  intros st r.
  destruct (malformed_response_sets_no_result (H := Sample.host) st r
              (JObject [ ("conditions", JString "none") ])
              eq_refl eq_refl eq_refl eq_refl eq_refl) as (A & B & _).
  split; [exact A | exact B].
Defined.

(** The theorem at symptoms made of two blanks. *)
Lemma empty_symptoms_issue_no_request_witness :
  let st := {| symptoms := "  "; age := "30"; gender := ""; duration := "";
               loading := false; result := None; error := "" |} in
  let net := Rejected (H := Sample.host) (HostRejection "Failed to fetch") in
  Str.trim (symptoms st) = EmptyString
  /\ existsb isFetch (snd (handleSubmit st net)) = false.
Proof.
  intros st net. split; [reflexivity|].
  exact (proj1 (proj2 (empty_symptoms_issue_no_request
                         (H := Sample.host) st net eq_refl))).
Defined.

(** C9 does not hold as the specification states it: a probability of
    one blank is normalised to the empty string, and the empty string to
    "Low". *)
Lemma blank_probability_is_not_a_fixed_point :
  let c0 := JObject [ ("name", JString "Flu");
                      ("probability", JString " ");
                      ("description", JString "") ] in
  let c1 := JObject [ ("name", JString "Flu");
                      ("probability", JString "");
                      ("description", JString "") ] in
  let c2 := JObject [ ("name", JString "Flu");
                      ("probability", JString "Low");
                      ("description", JString "") ] in
  mapExc (normalizeCondition (H := Sample.host)) [c0] = Return [c1]
  /\ mapExc (normalizeCondition (H := Sample.host)) [c1] = Return [c2]
  /\ [c1] <> [c2].
Proof. split; [reflexivity | split; [reflexivity | discriminate]]. Qed.

(** The theorem at a response with two conditions. *)
Lemma normalization_idempotent_on_stable_conditions_witness :
  let data := JObject (H := Sample.host)
    [ ("conditions",
        JArray [ JObject [ ("name", JString "Flu");
                           ("probability", JString "HIGH") ];
                 JObject [ ("probability", JString " medium ") ] ]);
      ("recommendations", JArray [ JString "Rest" ]);
      ("urgency", JString "routine") ] in
  hasShape data = true
  /\ forallb stableInput (conditionsOf data) = true
  /\ exists data1, normalizeResponse data = Return data1
                  /\ normalizeResponse data1 = Return data1.
Proof.
  intros data. split; [reflexivity|]. split; [reflexivity|].
  destruct (normalization_idempotent_on_stable_conditions
              (H := Sample.host) data eq_refl eq_refl) as (d1 & A & _ & B).
  exists d1. split; [exact A | exact B].
Defined.

End IndexProps.

(* ===================================================================== *)
(** * lib/api and the History page: properties *)
(* ===================================================================== *)

Module HistoryProps.
Import Js Net Api History JsFacts.
Section WithHost.
Context {H : Host}.

Lemma newDate_plain p : plain p = true -> exists t, newDate p = Return t.
Proof.
  intros P. destruct p as [ | | b | n | s | l | f]; simpl; eauto;
    destruct (ToString_plain _ P) as [s E]; simpl in E; rewrite E; simpl; eauto.
Qed.

(** One turn of the loop, on a plain candidate. *)
Lemma scanDates_step v rest :
  plain v = true ->
  scanDates (v :: rest)
  = match candidateDate v with
    | Some d => Return d
    | None => scanDates rest
    end.
Proof.
  intros P. destruct v as [ | | b | n | s | l | f]; simpl; try reflexivity.
  - now destruct b.
  - now destruct (numberToBoolean n).
  - destruct s; simpl; [reflexivity|]. now destruct (validDate _).
  - assert (Pp : plain (optProp (JObject f) "$date") = true)
      by now apply plain_optProp.
    simpl in Pp. destruct (lookup "$date" f) as [p|]; [|reflexivity].
    destruct (truthy p); [|reflexivity].
    destruct (newDate_plain p Pp) as [t ->]. simpl.
    now destruct (validDate t).
Qed.

Lemma scanDates_first vals :
  forallb plain vals = true ->
  forall i v d,
    nth_error vals i = Some v -> candidateDate v = Some d ->
    (forall j w, j < i -> nth_error vals j = Some w -> candidateDate w = None) ->
    scanDates vals = Return d.
Proof.
  induction vals as [|x r IH]; intros P i v d Hn Hc Hbefore.
  - destruct i; discriminate.
  - simpl in P. apply andb_prop in P as [Px Pr].
    rewrite (scanDates_step x r Px). destruct i as [|i]; simpl in Hn.
    + inversion Hn; subst. now rewrite Hc.
    + rewrite (Hbefore 0 x (Nat.lt_0_succ i) eq_refl).
      apply (IH Pr i v d Hn Hc). intros j w Hj Hw.
      apply (Hbefore (S j) w); [lia | exact Hw].
Qed.

Lemma scanDates_none vals :
  forallb plain vals = true ->
  (forall v, In v vals -> candidateDate v = None) ->
  scanDates vals = Return "Invalid Date".
Proof.
  induction vals as [|x r IH]; intros P Hall; [reflexivity|].
  simpl in P. apply andb_prop in P as [Px Pr].
  rewrite (scanDates_step x r Px), (Hall x (or_introl eq_refl)).
  apply (IH Pr). intros v Hv. apply Hall. now right.
Qed.

Lemma scanDates_returns vals :
  forallb plain vals = true -> exists d, scanDates vals = Return d.
Proof.
  induction vals as [|x r IH]; intros P; [simpl; eauto|].
  simpl in P. apply andb_prop in P as [Px Pr].
  rewrite (scanDates_step x r Px). destruct (candidateDate x); eauto.
Qed.

Lemma candidates_plain doc :
  plain doc = true -> forallb plain (candidates doc) = true.
Proof.
  intros P. unfold candidates. simpl.
  rewrite !plain_optProp; auto using plain_optProp.
Qed.

(** A document without any of the four fields. *)
Lemma no_timestamp_field_gives_sentinel doc :
  (forall v, In v (candidates doc) -> isNullish v = true) ->
  safeDateFromDoc doc = Return "Invalid Date".
Proof.
  intros A. unfold safeDateFromDoc. apply scanDates_none.
  - apply forallb_forall. intros v Hv. specialize (A v Hv). now destruct v.
  - intros v Hv. specialize (A v Hv). now destruct v.
Qed.

Lemma getProp_coalesce_empty x k :
  getProp (coalesce x (JObject [])) k = Return (optProp x k).
Proof. destruct x; reflexivity. Qed.

Lemma keeps_idString id it sid k :
  ToString id = Return sid -> idString it = Return k ->
  keeps id it = Return (negb (String.eqb k sid)).
Proof.
  unfold keeps, idString. intros E. destruct (getProp it "_id"); simpl; [|discriminate].
  intros ->. simpl. now rewrite E.
Qed.

Lemma filterExc_keeps id sid items :
  ToString id = Return sid ->
  Forall (fun it => returns (idString it) = true) items ->
  filterExc (keeps id) items
  = Return (filter (fun it => negb (hasId sid it)) items).
Proof.
  intros E. induction 1 as [|it r Hit _ IH]; simpl; [reflexivity|].
  unfold hasId. destruct (idString it) as [k|] eqn:K; [|discriminate].
  rewrite (keeps_idString id it sid k E K). simpl. rewrite IH. reflexivity.
Qed.

Lemma Subsequence_filter {A} (p : A -> bool) l : Subsequence (filter p l) l.
Proof.
  induction l as [|x r IH]; simpl; [constructor|].
  destruct (p x); now constructor.
Qed.

(** On a document in which no object hides [toString]:
    [safeDateFromDoc] walks the four candidates in the order
    top-level [_created_at], [created_at], [createdAt], nested
    [result._created_at].  A candidate holds a date as a plain string or
    as a wrapper with a [$date] string, the date being the one the string
    parses to.  The first candidate with a valid date gives the returned
    display string; when no candidate has one the function returns
    "Invalid Date", and nothing is thrown (the conversion inside
    [new Date] is defined on such a document). *)
Theorem first_valid_candidate_decides_the_date doc :
  plain doc = true ->
  candidates doc = [ optProp doc "_created_at";
                     optProp doc "created_at";
                     optProp doc "createdAt";
                     optProp (optProp doc "result") "_created_at" ]
  /\ (forall s, s <> EmptyString ->
        candidateDate (JString s) = validDate (dateParse s))
  /\ (forall fields s,
        lookup "$date" fields = Some (JString s) -> s <> EmptyString ->
        candidateDate (JObject fields) = validDate (dateParse s))
  /\ (forall i v d,
        nth_error (candidates doc) i = Some v ->
        candidateDate v = Some d ->
        (forall j w, j < i -> nth_error (candidates doc) j = Some w ->
                     candidateDate w = None) ->
        safeDateFromDoc doc = Return d)
  /\ ((forall v, In v (candidates doc) -> candidateDate v = None) ->
      safeDateFromDoc doc = Return "Invalid Date").
Proof.
  intros P. split; [reflexivity|]. split; [|split; [|split]].
  - intros s Hs. destruct s; [congruence | reflexivity].
  - intros fields s L Hs. simpl. rewrite L. destruct s; [congruence | reflexivity].
  - intros i v d. apply scanDates_first, candidates_plain, P.
  - apply scanDates_none, candidates_plain, P.
Qed.

(** For a history item that is not null or undefined (and in which no
    object hides [toString], so that its date resolves), lines 107-120 of
    the callback of [items.map] extract without throwing: symptoms, age and gender of
    [input], each "N/A" when absent; the summary of [result], the empty
    string when absent; recommendations and conditions of [result], each
    the empty list when not an array; and the identifier, the empty string
    when absent. *)
Theorem history_item_fields_default it :
  isNullish it = false -> plain it = true ->
  let field (o k : string) := optProp (optProp it o) k in
  let orElse (x : value) (d : string) := if isNullish x then JString d else x in
  exists view,
    viewItem it = Return view
    /\ safeDateFromDoc it = Return (createdAtStr view)
    /\ symptoms view = orElse (field "input" "symptoms") "N/A"
    /\ age view = orElse (field "input" "age") "N/A"
    /\ gender view = orElse (field "input" "gender") "N/A"
    /\ summary view = orElse (field "result" "summary") ""
    /\ recs view = arrayItems (field "result" "recommendations")
    /\ conditions view = arrayItems (field "result" "conditions")
    /\ (isArray (field "result" "recommendations") = false -> recs view = [])
    /\ (isArray (field "result" "conditions") = false -> conditions view = [])
    /\ (isNullish (optProp it "_id") = true -> id view = JString "")
    /\ id view = (if truthy (optProp it "_id") then optProp it "_id"
                  else JString "").
Proof.
  intros N P field orElse.
  destruct (scanDates_returns (candidates it) (candidates_plain it P)) as [d D].
  unfold viewItem, safeDateFromDoc. rewrite D. simpl.
  rewrite !getProp_coalesce_empty. simpl.
  rewrite (getProp_optProp it "_id" N). simpl.
  eexists. split; [reflexivity|]. simpl. fold (field "result" "recommendations").
  fold (field "result" "conditions").
  repeat split; try reflexivity.
  - now destruct (field "result" "recommendations").
  - now destruct (field "result" "conditions").
  - intros A. now rewrite A.
  - intros A. now rewrite A.
  - intros A. now destruct (optProp it "_id").
Qed.

(** C7, as amended.  Called without arguments, [fetchHistory] uses a limit
    of 20 and a skip of 0; the limit of 50 is what the history page passes
    explicitly, with skip 0. *)
Theorem fetchHistory_default_limit_20 net :
  fetchHistory JUndefined JUndefined net
  = fetchHistory (JNumber (numberOfZ 20)) (JNumber (numberOfZ 0)) net
  /\ snd (loadHistory net)
     = snd (fetchHistory (JNumber (numberOfZ 50)) (JNumber (numberOfZ 0)) net).
Proof.
  split; [reflexivity|]. unfold loadHistory.
  now destruct (fetchHistory _ _ net).
Qed.

(** C8, as amended.  For the empty identifier the handler validates
    nothing: once the user confirms, exactly one DELETE request goes to
    the history route with an empty last segment, whatever the reply; no
    request is issued only when the user declines. *)
Theorem empty_identifier_delete_is_requested net items :
  filter isFetch (snd (handleDelete (JString "") true net items))
  = [ Fetch {| url := (Api.API_URL ++ "/api/history/")%string;
               method := "DELETE"; headers := []; body := None |} ]
  /\ filter isFetch (snd (handleDelete (JString "") false net items)) = [].
Proof.
  split; [|reflexivity].
  unfold handleDelete, deleteHistory. simpl.
  destruct net as [e | r]; simpl; [reflexivity|].
  destruct (ok r); simpl; [|reflexivity].
  destruct (json r); reflexivity.
Qed.

(** C10.  After a delete that succeeded, the list is the previous list
    without the items whose [String(_id)] equals [String(id)]: the other
    items stay, in their order (every item must have such a string).
    After a delete that failed, or was declined, the list is unchanged. *)
Theorem delete_removes_exactly_the_matching_items id net items :
  (forall body sid,
      fst (deleteHistory id net) = Return body ->
      ToString id = Return sid ->
      Forall (fun it => returns (idString it) = true) items ->
      let kept := filter (fun it => negb (hasId sid it)) items in
      fst (handleDelete id true net items) = Return kept
      /\ Subsequence kept items
      /\ (forall it, In it kept <->
                     In it items /\ idString it <> ToString id))
  /\ (forall e,
        fst (deleteHistory id net) = Throw e ->
        fst (handleDelete id true net items) = Return items)
  /\ fst (handleDelete id false net items) = Return items.
Proof.
  split; [|split; [|reflexivity]].
  - intros body sid D E A kept. split; [|split].
    + unfold handleDelete. simpl. destruct (deleteHistory id net) as [r eff].
      simpl in D. subst r. simpl. now apply filterExc_keeps.
    + apply Subsequence_filter.
    + intros it. unfold kept. rewrite filter_In, E.
      split; intros [I K]; (split; [exact I|]).
      * unfold hasId in K. destruct (idString it) as [k|]; [|discriminate].
        apply negb_true_iff, String.eqb_neq in K. congruence.
      * rewrite Forall_forall in A. specialize (A it I).
        unfold hasId. destruct (idString it) as [k|]; [|discriminate].
        apply negb_true_iff, String.eqb_neq. congruence.
  - intros e D. unfold handleDelete. simpl.
    destruct (deleteHistory id net) as [r eff]. simpl in D. now subst r.
Qed.

(** C4: the code at a document whose [_created_at] wraps, under [$date],
    an object with an entry named [toString].  No candidate holds a valid
    date, yet the result is not "Invalid Date": [new Date(v.$date)] finds
    no primitive value for the payload and throws. *)
Theorem safeDateFromDoc_throws_on_hidden_toString :
  let doc := JObject
    [ ("_created_at",
        JObject [ ("$date", JObject [ ("toString", JBool true) ]) ]) ] in
  (forall v, In v (candidates doc) -> candidateDate v = None)
  /\ safeDateFromDoc doc = Throw (TypeErrorObj NotPrimitive).
Proof.
  split; [|reflexivity].
  intros v [<- | [<- | [<- | [<- | []]]]]; reflexivity.
Qed.

(** C5: the code at a null item.  The date resolves to the sentinel and
    the optional reads [it?.input] and [it?.result] pass, but the read
    [it._id] of line 120 is not optional and throws; none of the
    defaults is produced. *)
Theorem null_item_throws_at_its_id :
  safeDateFromDoc JNull = Return "Invalid Date"
  /\ optProp JNull "input" = JUndefined
  /\ optProp JNull "result" = JUndefined
  /\ viewItem JNull = Throw (TypeErrorObj (ReadOfNullish "_id"))
  /\ viewItem JUndefined = Throw (TypeErrorObj (ReadOfNullish "_id")).
Proof. repeat split; reflexivity. Qed.

End WithHost.

(** The theorem at a document whose first field does not parse and whose
    second is a wrapper. *)
Lemma first_valid_candidate_decides_the_date_witness :
  let doc := JObject (H := Sample.host)
    [ ("_created_at", JString "yesterday");
      ("created_at", JObject [ ("$date", JString "2024-01-01T00:00:00.000Z") ]);
      ("result", JObject [ ("_created_at", JString "1970-01-01T00:00:00.000Z") ]) ] in
  plain doc = true /\ safeDateFromDoc doc = Return "t=1704067200000".
Proof.
  intros doc. split; [reflexivity|].
  destruct (first_valid_candidate_decides_the_date (H := Sample.host) doc eq_refl)
    as (_ & _ & _ & F & _).
  apply (F 1 (JObject [ ("$date", JString "2024-01-01T00:00:00.000Z") ])
           "t=1704067200000"%string eq_refl eq_refl).
  intros j w Hj Hw. destruct j as [|j]; [|lia].
  simpl in Hw. injection Hw as <-. reflexivity.
Defined.

(** The theorem at a document without age and with null conditions. *)
Lemma history_item_fields_default_witness :
  let it := JObject (H := Sample.host)
    [ ("_id", JString "65a");
      ("input", JObject [ ("symptoms", JString "cough") ]);
      ("result", JObject [ ("conditions", JNull) ]) ] in
  isNullish it = false /\ plain it = true
  /\ exists view, viewItem it = Return view
                 /\ age view = JString "N/A"
                 /\ conditions view = [].
Proof.
  intros it. split; [reflexivity|]. split; [reflexivity|].
  destruct (history_item_fields_default (H := Sample.host) it eq_refl eq_refl)
    as (view & V & _ & _ & A & _ & _ & _ & C & _).
  exists view. split; [exact V|]. split; [exact A | exact C].
Defined.

(** C7 does not hold as the specification states it: without arguments
    the request asks for 20 items, not the 50 an explicit call asks for. *)
Lemma default_limit_is_not_50 :
  let net := Rejected (H := Sample.host) (HostRejection "offline") in
  snd (fetchHistory JUndefined JUndefined net)
  = [ Fetch {| url := "http://localhost:8000/api/history?limit=20&skip=0";
               method := "GET"; headers := []; body := None |} ]
  /\ snd (fetchHistory JUndefined JUndefined net)
     <> snd (fetchHistory (H := Sample.host)
               (JNumber (numberOfZ 50)) (JNumber (numberOfZ 0)) net).
Proof. split; [reflexivity | discriminate]. Qed.

(** C8 does not hold as the specification states it: an item without
    identifier is displayed with the empty identifier, and its confirmed
    delete issues the request. *)
Lemma empty_identifier_is_sent :
  let it := JObject (H := Sample.host)
    [ ("input", JObject [ ("symptoms", JString "cough") ]) ] in
  let net := Responded {| ok := true; text := Return "";
                          json := Return (JObject []) |} in
  exists view,
    viewItem it = Return view
    /\ id view = JString ""
    /\ snd (handleDelete (id view) true net [it])
       = [ Confirm "Delete this entry?";
           Fetch {| url := "http://localhost:8000/api/history/";
                    method := "DELETE"; headers := []; body := None |} ].
Proof. eexists. split; [reflexivity|]. split; reflexivity. Qed.

(** The theorem at a list holding the identifier twice. *)
Lemma delete_removes_exactly_the_matching_items_witness :
  let a := JObject (H := Sample.host) [ ("_id", JString "a") ] in
  let b := JObject (H := Sample.host) [ ("_id", JString "b") ] in
  let c := JObject (H := Sample.host) [ ("input", JNull) ] in
  let net := Responded {| ok := true; text := Return "";
                          json := Return (JObject [ ("deleted", JBool true) ]) |} in
  fst (deleteHistory (JString "a") net) = Return (JObject [ ("deleted", JBool true) ])
  /\ fst (handleDelete (JString "a") true net [a; b; a; c]) = Return [b; c].
Proof.
  intros a b c net. split; [reflexivity|].
  destruct (delete_removes_exactly_the_matching_items
              (H := Sample.host) (JString "a") net [a; b; a; c]) as (S & _).
  apply (S (JObject [ ("deleted", JBool true) ]) "a"%string eq_refl eq_refl).
  repeat constructor.
Defined.

End HistoryProps.

(* ===================================================================== *)
(** * The Index page: further properties *)
(* ===================================================================== *)

Module IndexMore.
Import Js Net Index JsFacts IndexProps.
Section WithHost.
Context {H : Host}.

Lemma orString_nonempty s d : d <> EmptyString -> orString s d <> EmptyString.
Proof. unfold orString. destruct s; simpl; [auto | discriminate]. Qed.

Lemma orString_of_nonempty s d : s <> EmptyString -> orString s d = s.
Proof. unfold orString. destruct s; simpl; congruence. Qed.

Lemma returns_bind {A B} (m : exc A) (k : A -> exc B) :
  returns (bind m k)
  = match m with Return a => returns (k a) | Throw _ => false end.
Proof. now destruct m. Qed.

Lemma returns_mapExc {A B} (f : A -> exc B) l :
  returns (mapExc f l) = forallb (fun x => returns (f x)) l.
Proof.
  induction l as [|x r IH]; simpl; [reflexivity|].
  destruct (f x); simpl; [|reflexivity].
  rewrite <- IH. now destruct (mapExc f r).
Qed.

Lemma mapExc_length {A B} (f : A -> exc B) l l' :
  mapExc f l = Return l' -> length l' = length l.
Proof.
  revert l'. induction l as [|x r IH]; simpl; intros l' E.
  - now inversion E.
  - destruct (f x); simpl in E; [|discriminate].
    destruct (mapExc f r) as [ys|]; simpl in E; [|discriminate].
    inversion E; subst. simpl. now rewrite (IH ys eq_refl).
Qed.

Lemma mapExc_Forall {A B} (f : A -> exc B) (P : B -> Prop) l l' :
  (forall x y, f x = Return y -> P y) ->
  mapExc f l = Return l' -> Forall P l'.
Proof.
  intros HP. revert l'. induction l as [|x r IH]; simpl; intros l' E.
  - inversion E. constructor.
  - destruct (f x) as [y|] eqn:F; simpl in E; [|discriminate].
    destruct (mapExc f r) as [ys|]; simpl in E; [|discriminate].
    inversion E; subst. constructor; [now apply (HP x) | now apply IH].
Qed.

Lemma forallb_pointwise {A} (f g : A -> bool) l :
  (forall x, f x = g x) -> forallb f l = forallb g l.
Proof.
  intros E. induction l as [|x r IH]; simpl; [reflexivity|].
  now rewrite E, IH.
Qed.

Lemma returns_normalizeCondition c :
  returns (normalizeCondition c) = normalizable c.
Proof.
  unfold normalizable, normalizeCondition, rawProbability.
  destruct (isNullish c) eqn:N.
  - now destruct c.
  - rewrite !getProp_optProp by exact N. simpl.
    destruct (truthy (optProp c "probability")) eqn:T.
    + rewrite !truthy_or by exact T.
      now destruct (toStringMethod (optProp c "probability")).
    + rewrite !falsy_or by exact T. reflexivity.
Qed.

(** What is known of a condition once [normalizeCondition] returned. *)
Lemma normalizeCondition_inv c c1 :
  normalizeCondition c = Return c1 ->
  exists s, isNullish c = false /\ rawProbability c = Return s
            /\ c1 = JObject
                 [ ("name", or (optProp c "name") (JString "Unknown"));
                   ("probability", JString (titleCase (Str.trim s)));
                   ("description", or (optProp c "description") (JString "")) ].
Proof.
  intros E. assert (R : returns (normalizeCondition c) = true) by now rewrite E.
  rewrite returns_normalizeCondition in R. unfold normalizable in R.
  apply andb_prop in R as [N R]. apply negb_true_iff in N.
  destruct (rawProbability c) as [s|] eqn:Rs; [|discriminate].
  exists s. split; [exact N|]. split; [reflexivity|].
  rewrite (normalizeCondition_value c s N Rs) in E. now inversion E.
Qed.

Lemma normalizeResponse_inv data data1 :
  normalizeResponse data = Return data1 ->
  exists f items rs items1,
    data = JObject f
    /\ lookup "conditions" f = Some (JArray items)
    /\ lookup "recommendations" f = Some (JArray rs)
    /\ mapExc normalizeCondition items = Return items1
    /\ data1 = JObject (assign "conditions" (JArray items1) f).
Proof.
  intros E. destruct (hasShape data) eqn:S.
  - destruct (hasShape_object data S) as (f & items & rs & -> & C & R).
    rewrite (normalizeResponse_shaped f items rs C R) in E.
    destruct (mapExc normalizeCondition items) as [items1|] eqn:M;
      simpl in E; [|discriminate].
    inversion E. exists f, items, rs, items1. auto.
  - rewrite (normalizeResponse_rejects data S) in E. discriminate.
Qed.

Lemma styleLookup_In k s :
  styleLookup k probabilityStyles = Some s ->
  In s (map snd probabilityStyles).
Proof.
  simpl. destruct (String.eqb k "High"); [intros [= <-]; auto|].
  destruct (String.eqb k "Medium"); [intros [= <-]; auto|].
  destruct (String.eqb k "Low"); [intros [= <-]; auto | discriminate].
Qed.

Lemma configLookup_isUrgency k :
  isUrgency k
  = match configLookup k urgencyConfig with Some _ => true | None => false end.
Proof.
  unfold isUrgency. simpl.
  destruct (String.eqb k "emergency"); [reflexivity|].
  destruct (String.eqb k "urgent"); [reflexivity|].
  destruct (String.eqb k "routine"); [reflexivity|].
  now destruct (String.eqb k "self-care").
Qed.

(** X1.  A submission with symptoms always ends with [loading] off, the
    form fields as they were, and exactly one of the two outcomes: the
    normalised response in [result] with an empty [error], or no result
    and a non-empty [error]. *)
Theorem submit_ends_with_result_or_error st net :
  Str.isAscii (symptoms st) = true ->
  Str.isEmpty (Str.trim (symptoms st)) = false ->
  let st' := fst (handleSubmit st net) in
  loading st' = false
  /\ (symptoms st', age st', gender st', duration st')
     = (symptoms st, age st, gender st, duration st)
  /\ ((exists data, analyze net = Return data
                    /\ result st' = Some data /\ error st' = EmptyString)
      \/ (result st' = None /\ error st' <> EmptyString)).
Proof.
  intros _ S. unfold handleSubmit. rewrite S.
  destruct (analyze net) as [data|e]; simpl.
  - split; [reflexivity|]. split; [reflexivity|]. left. now exists data.
  - split; [reflexivity|]. split; [reflexivity|]. right.
    split; [reflexivity|]. now apply orString_nonempty.
Qed.

(** X2.  A submission with symptoms issues exactly one request, whatever
    comes back: a POST to the analyze route whose [symptoms] is the
    trimmed text, never empty and free of surrounding white space; age,
    gender and duration left empty in the form are left out. *)
Theorem submit_sends_one_trimmed_request st net :
  Str.isAscii (symptoms st) = true ->
  Str.isEmpty (Str.trim (symptoms st)) = false ->
  let sent := Str.trim (symptoms st) in
  snd (handleSubmit st net) = [ PreventDefault; Fetch (analyzeRequest st) ]
  /\ url (analyzeRequest st) = (API_URL ++ "/api/analyze")%string
  /\ method (analyzeRequest st) = "POST"
  /\ exists b,
       body (analyzeRequest st) = Some b
       /\ optProp b "symptoms" = JString sent
       /\ sent <> EmptyString /\ Str.trim sent = sent
       /\ (age st = EmptyString -> optProp b "age" = JUndefined)
       /\ (gender st = EmptyString -> optProp b "gender" = JUndefined)
       /\ (duration st = EmptyString -> optProp b "duration" = JUndefined).
Proof.
  intros _ S sent. unfold handleSubmit. rewrite S.
  split; [reflexivity|]. split; [reflexivity|]. split; [reflexivity|].
  eexists. split; [reflexivity|]. split; [reflexivity|].
  split; [now apply StrFacts.isEmpty_false|].
  split; [apply StrFacts.trim_idem|].
  repeat split; intros ->; reflexivity.
Qed.

(** X3.  When the reply is not ok, the body is never parsed: the error
    shown is the text of the reply, or "Analysis failed" when that text
    is empty, and there is no result. *)
Theorem failed_reply_shows_its_text st r t :
  Str.isAscii (symptoms st) = true ->
  Str.isEmpty (Str.trim (symptoms st)) = false ->
  ok r = false -> text r = Return t ->
  let st' := fst (handleSubmit st (Responded r)) in
  result st' = None
  /\ error st' = if Str.isEmpty t then "Analysis failed" else t.
Proof.
  intros _ S O T. unfold handleSubmit. rewrite S. unfold analyze.
  rewrite O, T. simpl. split; [reflexivity|].
  destruct t; reflexivity.
Qed.

(** X4.  The normalisation touches [conditions] only: every other entry
    of the response is as it was, the conditions are as many as before,
    and the result still passes the shape test. *)
Theorem normalization_touches_conditions_only data data1 :
  normalizeResponse data = Return data1 ->
  (forall k, String.eqb k "conditions" = false ->
             optProp data1 k = optProp data k)
  /\ length (conditionsOf data1) = length (conditionsOf data)
  /\ hasShape data1 = true.
Proof.
  intros E.
  destruct (normalizeResponse_inv data data1 E)
    as (f & items & rs & items1 & -> & C & R & M & ->).
  assert (C1 : lookup "conditions" (assign "conditions" (JArray items1) f)
               = Some (JArray items1)) by apply lookup_assign_same.
  split; [|split].
  - intros k K. simpl. now rewrite lookup_assign_other.
  - unfold conditionsOf. simpl. rewrite C, C1. now apply mapExc_length with (f := normalizeCondition).
  - unfold hasShape. simpl. rewrite C1, lookup_assign_other by reflexivity.
    now rewrite R.
Qed.

(** X5.  The normalisation succeeds exactly when the response passes the
    shape test and every condition can be handled: one null condition,
    or one probability without a string, fails the whole response. *)
Theorem normalization_succeeds_iff data :
  returns (normalizeResponse data)
  = hasShape data && forallb normalizable (conditionsOf data).
Proof.
  destruct (hasShape data) eqn:S.
  - destruct (hasShape_object data S) as (f & items & rs & -> & C & R).
    rewrite (normalizeResponse_shaped f items rs C R), returns_bind.
    unfold conditionsOf. simpl. rewrite C.
    rewrite <- (forallb_pointwise _ _ items returns_normalizeCondition).
    rewrite <- returns_mapExc. now destruct (mapExc normalizeCondition items).
  - now rewrite (normalizeResponse_rejects data S).
Qed.

(** X6.  Every condition of a normalised response is an object with
    exactly the entries name, probability and description, in that
    order: the name is truthy, the probability is a string, and the
    description is truthy or the empty string. *)
Theorem normalized_conditions_have_three_fields data data1 :
  normalizeResponse data = Return data1 ->
  Forall (fun c1 =>
            exists n p d,
              c1 = JObject [ ("name", n); ("probability", JString p);
                             ("description", d) ]
              /\ truthy n = true
              /\ (truthy d = true \/ d = JString ""))
         (conditionsOf data1).
Proof.
  intros E.
  destruct (normalizeResponse_inv data data1 E)
    as (f & items & rs & items1 & -> & C & R & M & ->).
  unfold conditionsOf. simpl. rewrite lookup_assign_same.
  apply (mapExc_Forall normalizeCondition _ items items1); [|exact M].
  intros c c1 N. destruct (normalizeCondition_inv c c1 N) as (s & _ & _ & ->).
  do 3 eexists. split; [reflexivity|]. split.
  - unfold or. now destruct (truthy (optProp c "name")) eqn:T.
  - unfold or. destruct (truthy (optProp c "description")) eqn:T; auto.
Qed.

(** X7.  For a result whose urgency has the string [k], the badge is
    rendered exactly when [k] is one of the four urgencies or a name
    every object inherits; for the four urgencies it shows their label.
    For any other [k] rendering throws. *)
Theorem urgency_badge_returns_iff res k :
  isNullish res = false ->
  ToString (optProp res "urgency") = Return k ->
  returns (urgencyBadge res)
  = (isUrgency k || existsb (String.eqb k) objectPrototypeKeys)
  /\ (isUrgency k = true ->
      exists e, configLookup k urgencyConfig = Some e
                /\ urgencyBadge res
                   = Return (label e ++ " Care Recommended")%string).
Proof.
  intros N T. unfold urgencyBadge. rewrite getProp_optProp by exact N.
  cbn [bind]. rewrite T. cbn [bind]. rewrite configLookup_isUrgency.
  destruct (configLookup k urgencyConfig) as [e|].
  - split; [reflexivity|]. intros _. now exists e.
  - split; [|discriminate].
    now destruct (existsb (String.eqb k) objectPrototypeKeys).
Qed.

(** X8.  For a condition that came out of the normalisation, [safeStyle]
    never throws.  A probability the table lists gets its own style; any
    other gets the style of Low.  The single exception is the
    probability "__proto__", which reads an inherited member. *)
Theorem safeStyle_after_normalization c c1 :
  normalizeCondition c = Return c1 ->
  exists p,
    optProp c1 "probability" = JString p
    /\ (p = "High"%string ->
        safeStyle c1 = Return (StyleText
          "bg-probability-high/15 text-probability-high border-probability-high/30"))
    /\ (p = "Medium"%string ->
        safeStyle c1 = Return (StyleText
          "bg-probability-medium/15 text-probability-medium border-probability-medium/30"))
    /\ (p = "Low"%string \/ (isProbability p = false /\ p <> "__proto__"%string) ->
        safeStyle c1 = Return (StyleText
          "bg-probability-low/15 text-probability-low border-probability-low/30"))
    /\ (p = "__proto__"%string ->
        safeStyle c1 = Return (InheritedMember "__proto__")).
Proof.
  intros E. destruct (normalizeCondition_inv c c1 E) as (s & _ & _ & ->).
  assert (I : titleCase (titleCase (Str.trim s)) = titleCase (Str.trim s))
    by apply titleCase_idem.
  set (p := titleCase (Str.trim s)) in *. clearbody p.
  exists p. split; [reflexivity|].
  unfold safeStyle.
  cbn [getProp optProp lookup String.eqb Ascii.eqb Bool.eqb bind ToString].
  split; [now intros ->|]. split; [now intros ->|]. split; [|now intros ->].
  intros [-> | [N P]]; [reflexivity|].
  unfold isProbability in N.
  apply orb_false_elim in N as [N NL]. apply orb_false_elim in N as [NH NM].
  cbn [styleLookup probabilityStyles]. rewrite NH, NM, NL.
  destruct (existsb (String.eqb p) objectPrototypeKeys) eqn:X; [|reflexivity].
  exfalso. apply existsb_exists in X as (k & K & Q).
  apply String.eqb_eq in Q. subst k. simpl in K.
  repeat (destruct K as [K|K];
          [subst p; first [now apply P | discriminate I]|]).
  destruct K.
Qed.

End WithHost.

(** X1 at a rejected fetch. *)
Lemma submit_ends_with_result_or_error_witness :
  let st := {| symptoms := " fever "; age := ""; gender := ""; duration := "";
               loading := false; result := None; error := "" |} in
  let net := Rejected (H := Sample.host) (HostRejection "Failed to fetch") in
  loading (fst (handleSubmit st net)) = false
  /\ symptoms (fst (handleSubmit st net)) = " fever ".
Proof.
  intros st net.
  destruct (submit_ends_with_result_or_error (H := Sample.host) st net
              eq_refl eq_refl) as (L & F & _).
  split; [exact L | exact (f_equal (fun q => fst (fst (fst q))) F)].
Defined.

(** X2 at padded symptoms and an age. *)
Lemma submit_sends_one_trimmed_request_witness :
  let st := {| symptoms := " fever "; age := "30"; gender := ""; duration := "";
               loading := false; result := None; error := "" |} in
  let net := Rejected (H := Sample.host) (HostRejection "Failed to fetch") in
  snd (handleSubmit st net) = [ PreventDefault; Fetch (analyzeRequest st) ]
  /\ exists b, body (analyzeRequest st) = Some b
               /\ optProp b "symptoms" = JString "fever"
               /\ optProp b "gender" = JUndefined.
Proof.
  intros st net.
  destruct (submit_sends_one_trimmed_request (H := Sample.host) st net
              eq_refl eq_refl) as (E & _ & _ & b & B & S & _ & _ & _ & G & _).
  split; [exact E|]. exists b. split; [exact B|].
  split; [exact S | exact (G eq_refl)].
Defined.

(** X3 at a reply without text. *)
Lemma failed_reply_shows_its_text_witness :
  let st := {| symptoms := "fever"; age := ""; gender := ""; duration := "";
               loading := false; result := None; error := "" |} in
  let r := {| ok := false; text := Return "";
              json := Return (JNull (H := Sample.host)) |} in
  error (fst (handleSubmit st (Responded r))) = "Analysis failed".
Proof.
  intros st r.
  exact (proj2 (failed_reply_shows_its_text (H := Sample.host) st r ""
                  eq_refl eq_refl eq_refl eq_refl)).
Defined.

(** X4 and X6 at a response with one condition and an extra entry. *)
Lemma normalization_touches_conditions_only_witness :
  let data := JObject (H := Sample.host)
    [ ("summary", JString "Likely viral");
      ("conditions", JArray [ JObject [ ("probability", JString "high") ] ]);
      ("recommendations", JArray []) ] in
  exists data1, normalizeResponse data = Return data1
                /\ optProp data1 "summary" = JString "Likely viral"
                /\ length (conditionsOf data1) = 1.
Proof.
  intros data. eexists. split; [reflexivity|].
  destruct (normalization_touches_conditions_only (H := Sample.host) data _
              eq_refl) as (F & L & _).
  split; [exact (F "summary"%string eq_refl) | exact L].
Defined.

Lemma normalized_conditions_have_three_fields_witness :
  let data := JObject (H := Sample.host)
    [ ("conditions", JArray [ JObject [ ("probability", JString "high") ] ]);
      ("recommendations", JArray []) ] in
  exists data1, normalizeResponse data = Return data1
                /\ Forall (fun c1 => truthy (optProp c1 "name") = true)
                          (conditionsOf data1).
Proof.
  intros data. eexists. split; [reflexivity|].
  pose proof (normalized_conditions_have_three_fields (H := Sample.host)
                data _ eq_refl) as F.
  eapply Forall_impl; [|exact F].
  intros c1 (n & p & d & -> & T & _). exact T.
Defined.

(** X7 at the urgency "urgent". *)
Lemma urgency_badge_returns_iff_witness :
  let res := JObject (H := Sample.host) [ ("urgency", JString "urgent") ] in
  returns (urgencyBadge res) = true.
Proof.
  intros res.
  exact (proj1 (urgency_badge_returns_iff (H := Sample.host) res "urgent"
                  eq_refl eq_refl)).
Defined.

(** X8 at a probability outside the three. *)
Lemma safeStyle_after_normalization_witness :
  let c := JObject (H := Sample.host) [ ("probability", JString "unknown") ] in
  exists c1,
    normalizeCondition c = Return c1
    /\ safeStyle c1 = Return (StyleText
         "bg-probability-low/15 text-probability-low border-probability-low/30").
Proof.
  intros c. eexists. split; [reflexivity|].
  destruct (safeStyle_after_normalization (H := Sample.host) c _ eq_refl)
    as (p & P & _ & _ & L & _).
  injection P as <-. apply L. right. split; [reflexivity | discriminate].
Defined.

End IndexMore.

(* ===================================================================== *)
(** * The History page: further properties *)
(* ===================================================================== *)

Module HistoryMore.
Import Js Net Api History JsFacts HistoryProps.
Section WithHost.
Context {H : Host}.

Lemma scanDates_falsy vals :
  forallb (fun v => negb (truthy v)) vals = true ->
  scanDates vals = Return "Invalid Date".
Proof.
  induction vals as [|x r IH]; simpl; [reflexivity|]. intros F.
  apply andb_prop in F as [Fx Fr]. rewrite Fx. now apply IH.
Qed.

Lemma validDate_inv t out :
  validDate t = Some out ->
  numberIsNaN t = false /\ out = dateToLocaleString t.
Proof.
  unfold validDate. destruct (numberIsNaN t); [discriminate|].
  now intros [= <-].
Qed.

Lemma scanDates_result vals d :
  scanDates vals = Return d ->
  d = "Invalid Date"
  \/ exists t, numberIsNaN t = false /\ d = dateToLocaleString t.
Proof.
  induction vals as [|x r IH]; simpl; intros E.
  - left. now inversion E.
  - destruct (truthy x); simpl in E; [|now apply IH].
    assert (Tail :
      (if truthy (optProp x "$date")
       then t <- newDate (optProp x "$date") ;;
            match validDate t with
            | Some out => Return out
            | None => scanDates r
            end
       else scanDates r) = Return d ->
      d = "Invalid Date"
      \/ exists t, numberIsNaN t = false /\ d = dateToLocaleString t).
    { intros T. destruct (truthy (optProp x "$date")); [|now apply IH].
      destruct (newDate (optProp x "$date")) as [t|]; simpl in T; [|discriminate].
      destruct (validDate t) as [out|] eqn:V; [|now apply IH].
      inversion T; subst. right. exists t. now apply validDate_inv. }
    destruct (typeofIsString x); simpl in E; [|now apply Tail].
    destruct (newDate x) as [t|]; simpl in E; [|discriminate].
    destruct (validDate t) as [out|] eqn:V; [|now apply Tail].
    inversion E; subst. right. exists t. now apply validDate_inv.
Qed.

Lemma filterExc_idem {A} (p : A -> exc bool) l l1 :
  filterExc p l = Return l1 -> filterExc p l1 = Return l1.
Proof.
  revert l1. induction l as [|x r IH]; simpl; intros l1 E.
  - now inversion E.
  - destruct (p x) as [b|] eqn:P; simpl in E; [|discriminate].
    destruct (filterExc p r) as [ys|]; simpl in E; [|discriminate].
    inversion E; subst. destruct b; [|now apply IH].
    simpl. rewrite P. simpl. now rewrite (IH ys eq_refl).
Qed.

Lemma filterExc_In_kept {A} (p : A -> exc bool) l l1 x :
  filterExc p l = Return l1 -> In x l -> p x = Return true -> In x l1.
Proof.
  revert l1. induction l as [|y r IH]; simpl; intros l1 E I P; [contradiction|].
  destruct (p y) as [b|] eqn:Py; simpl in E; [|discriminate].
  destruct (filterExc p r) as [ys|]; simpl in E; [|discriminate].
  inversion E; subst. destruct I as [-> | I].
  - rewrite P in Py. inversion Py; subst. now left.
  - specialize (IH ys eq_refl I P). destruct b; [now right | exact IH].
Qed.

(** The list after [handleDelete] is the old one or the filtered one. *)
Lemma handleDelete_list id confirmed net l :
  fst (handleDelete id confirmed net l) = Return l
  \/ (confirmed = true
      /\ returns (fst (deleteHistory id net)) = true
      /\ fst (handleDelete id confirmed net l) = filterExc (keeps id) l).
Proof.
  unfold handleDelete. destruct confirmed; simpl; [|now left].
  destruct (deleteHistory id net) as [[body|e] eff]; simpl; auto.
Qed.

Lemma viewItem_id it view :
  viewItem it = Return view ->
  isNullish it = false
  /\ id view = or (optProp it "_id") (JString "").
Proof.
  unfold viewItem. destruct (safeDateFromDoc it); simpl; [|discriminate].
  rewrite !getProp_coalesce_empty. simpl.
  destruct (isNullish it) eqn:N; [destruct it; discriminate|].
  rewrite getProp_optProp by exact N. simpl. now intros [= <-].
Qed.


(** X9.  When each of the four timestamp fields is missing or falsy
    (null, the empty string, zero, false), [safeDateFromDoc] returns
    "Invalid Date"; this holds for every argument, null and undefined
    included. *)
Theorem falsy_timestamps_give_sentinel doc :
  (forall v, In v (candidates doc) -> truthy v = false) ->
  safeDateFromDoc doc = Return "Invalid Date".
Proof.
  intros F. apply scanDates_falsy, forallb_forall.
  intros v I. now rewrite (F v I).
Qed.

(** X10.  Whatever [safeDateFromDoc] returns is the sentinel or the
    display string of a date that is valid: the text of an invalid date
    is never produced by [toLocaleString]. *)
Theorem safeDateFromDoc_never_shows_an_invalid_date doc d :
  safeDateFromDoc doc = Return d ->
  d = "Invalid Date"
  \/ exists t, numberIsNaN t = false /\ d = dateToLocaleString t.
Proof. apply scanDates_result. Qed.

(** Lines 107-120 throw in two cases only: the item is null or undefined
    (the read of [it._id]), or its date cannot be resolved. *)
Theorem viewItem_returns_iff it :
  returns (viewItem it)
  = negb (isNullish it) && returns (safeDateFromDoc it).
Proof.
  unfold viewItem. destruct (safeDateFromDoc it) as [d|e]; simpl.
  - rewrite !getProp_coalesce_empty. simpl.
    destruct (isNullish it) eqn:N; [now destruct it|].
    now rewrite getProp_optProp by exact N.
  - now rewrite andb_false_r.
Qed.


(** X13.  What the load takes as the list.  A null body throws.
    Otherwise: an array under [items] is taken; failing that, a body
    that is itself an array; failing that the empty list when [items]
    is missing or null.  The only way to a list that is not an array is
    an [items] entry that is neither an array nor null. *)
Theorem load_accepts_three_shapes data :
  (isNullish data = true -> returns (itemsOf data) = false)
  /\ (isNullish data = false ->
      exists v,
        itemsOf data = Return v
        /\ (isArray (optProp data "items") = true -> v = optProp data "items")
        /\ (isArray data = true -> v = data)
        /\ (isArray data = false ->
            isNullish (optProp data "items") = true -> v = JArray [])
        /\ (isArray v = false ->
            v = optProp data "items" /\ isNullish v = false)).
Proof.
  split; [now destruct data|]. intros N. unfold itemsOf.
  rewrite getProp_optProp by exact N. simpl.
  destruct data as [ | | b | n | s | l | f]; try discriminate;
    try (eexists; split; [reflexivity|]; repeat split;
         try discriminate; reflexivity).
  simpl. destruct (lookup "items" f) as [[ | | b | n | s | l | g]|];
    eexists; (split; [reflexivity|]); repeat split; try discriminate;
    reflexivity.
Qed.

(** X14.  The steps of [handleDelete]: it always asks first; it sends at
    most one request, and sends it exactly when the user confirmed and
    the address could be built; it alerts exactly when the user
    confirmed and the delete failed; a declined dialog is all there is. *)
Theorem handleDelete_steps id confirmed net l :
  let eff := snd (handleDelete id confirmed net l) in
  hd_error eff = Some (Confirm "Delete this entry?")
  /\ length (filter isFetch eff) <= 1
  /\ existsb isFetch eff = confirmed && returns (deleteUrl id)
  /\ existsb isAlert eff
     = confirmed && negb (returns (fst (deleteHistory id net)))
  /\ (confirmed = false -> eff = [ Confirm "Delete this entry?" ]).
Proof.
  unfold handleDelete, deleteHistory.
  destruct confirmed; simpl; [|repeat split; auto].
  destruct (deleteUrl id) as [u|e]; simpl; [|repeat split; auto; discriminate].
  destruct net as [e|r]; simpl; [repeat split; auto; discriminate|].
  destruct (ok r); simpl; [|repeat split; auto; discriminate].
  destruct (json r); simpl; repeat split; auto; discriminate.
Qed.

(** X15.  Deleting is idempotent on the list: running the handler again
    on the list it left, with the same identifier and reply, leaves that
    list as it is. *)
Theorem handleDelete_twice id confirmed net l l1 :
  fst (handleDelete id confirmed net l) = Return l1 ->
  fst (handleDelete id confirmed net l1) = Return l1.
Proof.
  intros E.
  destruct (handleDelete_list id confirmed net l) as [K0 | (_ & _ & K0)];
    rewrite K0 in E.
  - inversion E; subst. exact K0.
  - destruct (handleDelete_list id confirmed net l1) as [K | (_ & _ & K)];
      [exact K|].
    rewrite K. now apply filterExc_idem with (l := l).
Qed.

(** X16.  A successful delete of an identifier no item has leaves the
    list as it is. *)
Theorem delete_of_unknown_id_changes_nothing id sid net body l :
  fst (deleteHistory id net) = Return body ->
  ToString id = Return sid ->
  Forall (fun it => exists k, idString it = Return k /\ k <> sid) l ->
  fst (handleDelete id true net l) = Return l.
Proof.
  intros D E A. unfold handleDelete. simpl.
  destruct (deleteHistory id net) as [r eff]. simpl in D. subst r. simpl.
  rewrite (filterExc_keeps id sid l E).
  - f_equal. apply forallb_filter_id, forallb_forall. intros it I.
    rewrite Forall_forall in A. destruct (A it I) as (k & K & Ne).
    unfold hasId. rewrite K. now apply negb_true_iff, String.eqb_neq.
  - eapply Forall_impl; [|exact A]. intros it (k & K & _). now rewrite K.
Qed.

(** X17.  An item without identifier ([_id] missing or null) cannot be
    removed through its own Delete button: the handler is called with
    the empty string, and whatever the reply, the item is still in the
    list afterwards. *)
Theorem item_without_id_survives_its_delete it view confirmed net l l1 :
  viewItem it = Return view ->
  isNullish (optProp it "_id") = true ->
  In it l ->
  fst (handleDelete (id view) confirmed net l) = Return l1 ->
  id view = JString "" /\ In it l1.
Proof.
  intros V A I E. destruct (viewItem_id it view V) as (N & Q).
  assert (Q' : id view = JString "").
  { rewrite Q. unfold or. now destruct (optProp it "_id"). }
  split; [exact Q'|]. rewrite Q' in E.
  destruct (handleDelete_list (JString "") confirmed net l)
    as [K | (_ & _ & K)]; rewrite K in E.
  - now inversion E; subst.
  - apply (filterExc_In_kept (keeps (JString "")) l l1 it E I).
    unfold keeps. rewrite getProp_optProp by exact N.
    now destruct (optProp it "_id").
Qed.

(** X18.  When the reply to the delete is not ok, the body is not read,
    the list is unchanged and the alert reads "Delete failed: Delete
    failed". *)
Theorem refused_delete_alerts_twice_failed id sid r l :
  ToString id = Return sid -> ok r = false ->
  handleDelete id true (Responded r) l
  = (Return l,
     [ Confirm "Delete this entry?";
       Fetch {| url := (Api.API_URL ++ "/api/history/" ++ sid)%string;
                method := "DELETE"; headers := []; body := None |};
       Alert "Delete failed: Delete failed" ]).
Proof.
  intros E O. unfold handleDelete, deleteHistory, deleteUrl.
  rewrite E. simpl. now rewrite O.
Qed.

Lemma viewItem_conditions it view :
  viewItem it = Return view ->
  conditions view = arrayItems (optProp (optProp it "result") "conditions").
Proof.
  unfold viewItem. destruct (safeDateFromDoc it); simpl; [|discriminate].
  rewrite !getProp_coalesce_empty. simpl.
  destruct (getProp it "_id"); simpl; [|discriminate].
  intros [= <-]. simpl.
  now destruct (optProp (optProp it "result") "conditions").
Qed.

Lemma returns_conditionLineOf c :
  returns (conditionLineOf c) = negb (isNullish c).
Proof.
  unfold conditionLineOf. destruct (isNullish c) eqn:N; [now destruct c|].
  rewrite !getProp_optProp by exact N. simpl.
  now destruct (truthy (optProp c "probability")).
Qed.

(** X11.  The callback of [items.map] throws in four cases only: the item
    is null or undefined (the read of [it._id]); its date cannot be
    resolved; [result.conditions] is an array that holds null or
    undefined (the read of [c.name]); or the identifier has no string
    for the key of the element. *)
Theorem itemCallback_returns_iff it :
  returns (itemCallback it)
  = negb (isNullish it)
    && returns (safeDateFromDoc it)
    && forallb (fun c => negb (isNullish c))
               (arrayItems (optProp (optProp it "result") "conditions"))
    && returns (ToString (or (optProp it "_id") (JString ""))).
Proof.
  unfold itemCallback. pose proof (viewItem_returns_iff it) as R.
  destruct (viewItem it) as [view|e] eqn:V; simpl in *.
  - destruct (viewItem_id it view V) as (_ & I).
    rewrite <- R, (viewItem_conditions it view V), I. simpl.
    rewrite <- (IndexMore.forallb_pointwise _ _ _ returns_conditionLineOf).
    rewrite <- IndexMore.returns_mapExc.
    destruct (Index.mapExc conditionLineOf _); simpl; [|reflexivity].
    now destruct (ToString _).
  - now rewrite <- R.
Qed.

End WithHost.

(** X9 at a document with an empty and a null timestamp. *)
Lemma falsy_timestamps_give_sentinel_witness :
  safeDateFromDoc (H := Sample.host)
    (JObject [ ("_created_at", JString ""); ("createdAt", JNull) ])
  = Return "Invalid Date".
Proof.
  apply (falsy_timestamps_give_sentinel (H := Sample.host)).
  intros v [<- | [<- | [<- | [<- | []]]]]; reflexivity.
Defined.

(** X10 at a document with a wrapped date. *)
Lemma safeDateFromDoc_never_shows_an_invalid_date_witness :
  "t=0"%string = "Invalid Date"%string
  \/ exists t, numberIsNaN (Host := Sample.host) t = false
               /\ "t=0"%string = dateToLocaleString t.
Proof.
  apply (safeDateFromDoc_never_shows_an_invalid_date (H := Sample.host)
           (JObject [ ("createdAt",
                       JObject [ ("$date", JString "1970-01-01T00:00:00.000Z") ]) ])).
  reflexivity.
Defined.

(** X15 at a list holding the identifier once. *)
Lemma handleDelete_twice_witness :
  let a := JObject (H := Sample.host) [ ("_id", JString "a") ] in
  let b := JObject (H := Sample.host) [ ("_id", JString "b") ] in
  let net := Responded {| ok := true; text := Return "";
                          json := Return (JObject []) |} in
  fst (handleDelete (JString "a") true net [a; b]) = Return [b]
  /\ fst (handleDelete (JString "a") true net [b]) = Return [b].
Proof.
  intros a b net. split; [reflexivity|].
  apply (handleDelete_twice (H := Sample.host) (JString "a") true net [a; b]).
  reflexivity.
Defined.

(** X16 at an identifier the list does not hold. *)
Lemma delete_of_unknown_id_changes_nothing_witness :
  let a := JObject (H := Sample.host) [ ("_id", JString "a") ] in
  let c := JObject (H := Sample.host) [ ("input", JNull) ] in
  let net := Responded {| ok := true; text := Return "";
                          json := Return (JObject []) |} in
  fst (handleDelete (JString "z") true net [a; c]) = Return [a; c].
Proof.
  intros a c net.
  apply (delete_of_unknown_id_changes_nothing (H := Sample.host)
           (JString "z") "z" net (JObject []) [a; c] eq_refl eq_refl).
  repeat constructor.
  - exists "a"%string. split; [reflexivity | discriminate].
  - exists "undefined"%string. split; [reflexivity | discriminate].
Defined.

(** X17 at an item without [_id], with a reply that is ok. *)
Lemma item_without_id_survives_its_delete_witness :
  let it := JObject (H := Sample.host)
              [ ("input", JObject [ ("symptoms", JString "cough") ]) ] in
  let net := Responded {| ok := true; text := Return "";
                          json := Return (JObject (H := Sample.host) []) |} in
  exists view, viewItem it = Return view
               /\ fst (handleDelete (id view) true net [it]) = Return [it]
               /\ id view = JString ""
               /\ In it [it].
Proof.
  intros it net. eexists. split; [reflexivity|]. split; [reflexivity|].
  apply (item_without_id_survives_its_delete (H := Sample.host)
           it _ true net [it] [it] eq_refl eq_refl (or_introl eq_refl) eq_refl).
Defined.

(** X18 at a reply that is not ok. *)
Lemma refused_delete_alerts_twice_failed_witness :
  let r := {| ok := false; text := Return "Not Found";
              json := Return (JNull (H := Sample.host)) |} in
  snd (handleDelete (JString "65a") true (Responded r) [])
  = [ Confirm "Delete this entry?";
      Fetch {| url := "http://localhost:8000/api/history/65a";
               method := "DELETE"; headers := []; body := None |};
      Alert "Delete failed: Delete failed" ].
Proof.
  intros r.
  exact (f_equal snd (refused_delete_alerts_twice_failed (H := Sample.host)
                        (JString "65a") "65a" r [] eq_refl eq_refl)).
Defined.


(** X13 at a body that wraps the list in [items]. *)
Lemma load_accepts_three_shapes_witness :
  let data := JObject (H := Sample.host)
                [ ("items", JArray [ JObject [ ("_id", JString "a") ] ]) ] in
  exists v, itemsOf data = Return v /\ v = optProp data "items".
Proof.
  intros data.
  destruct (proj2 (load_accepts_three_shapes (H := Sample.host) data) eq_refl)
    as (v & E & A & _).
  exists v. split; [exact E | exact (A eq_refl)].
Defined.

(** X14 at a declined dialog. *)
Lemma handleDelete_steps_witness :
  let net := Rejected (H := Sample.host) (HostRejection "Failed to fetch") in
  snd (handleDelete (JString "a") false net [])
  = [ Confirm "Delete this entry?" ].
Proof.
  intros net.
  destruct (handleDelete_steps (H := Sample.host) (JString "a") false net [])
    as (_ & _ & _ & _ & D).
  exact (D eq_refl).
Defined.

End HistoryMore.

(* ===================================================================== *)
(** * ThemeToggle: properties *)
(* ===================================================================== *)

Module ThemeProps.
Import Theme.

Lemma classAdd_In token c l :
  In c (classAdd token l) <-> In c l \/ c = token.
Proof.
  unfold classAdd. destruct (existsb (String.eqb token) l) eqn:E.
  - split; [auto|]. intros [I | ->]; [exact I|].
    apply existsb_exists in E as (x & I & Q).
    apply String.eqb_eq in Q. now subst.
  - rewrite in_app_iff. simpl. intuition congruence.
Qed.

Lemma classRemove_In token c l :
  In c (classRemove token l) <-> In c l /\ c <> token.
Proof.
  unfold classRemove. rewrite filter_In, negb_true_iff, String.eqb_neq.
  intuition congruence.
Qed.

Lemma classAdd_NoDup token l : NoDup l -> NoDup (classAdd token l).
Proof.
  intros N. unfold classAdd.
  destruct (existsb (String.eqb token) l) eqn:E; [exact N|].
  apply NoDup_app; [exact N | repeat constructor; auto |].
  intros a I [<- | []].
  assert (X : existsb (String.eqb token) l = true)
    by (apply existsb_exists; exists token;
        split; [exact I | apply String.eqb_refl]).
  congruence.
Qed.

Lemma classAdd_twice token l :
  classAdd token (classAdd token l) = classAdd token l.
Proof.
  unfold classAdd at 1.
  assert (X : existsb (String.eqb token) (classAdd token l) = true).
  { apply existsb_exists. exists token.
    split; [apply classAdd_In; now right | apply String.eqb_refl]. }
  now rewrite X.
Qed.

Lemma classRemove_twice token l :
  classRemove token (classRemove token l) = classRemove token l.
Proof.
  unfold classRemove. induction l as [|c r IH]; simpl; [reflexivity|].
  destruct (negb (String.eqb token c)) eqn:E; simpl; [|exact IH].
  now rewrite E, IH.
Qed.

(** X19.  The theme survives a reload: once the effect has run for a
    theme, the initialiser finds that theme in the storage, whatever the
    storage held before and whatever the system prefers. *)
Theorem stored_theme_is_restored t b :
  initialTheme (applyTheme t b) = t.
Proof. now destruct t. Qed.

(** X20.  A click switches to the other theme and a second click
    switches back; the button always names the theme a click leads to. *)
Theorem toggle_switches_and_returns t :
  toggle t <> t
  /\ toggle (toggle t) = t
  /\ buttonLabel t = Index.titleCase (themeName (toggle t)).
Proof. destruct t; repeat split; discriminate. Qed.

(** X21.  After the effect the class list holds "dark" exactly for the
    dark theme.  The effect touches nothing else: the other classes and
    the other storage keys are as before, no class is listed twice if
    none was, and the key "theme" holds the name of the theme. *)
Theorem applyTheme_sets_only_the_dark_class t b :
  (In "dark"%string (classList (applyTheme t b)) <-> t = Dark)
  /\ (forall c, c <> "dark"%string ->
                (In c (classList (applyTheme t b)) <-> In c (classList b)))
  /\ (NoDup (classList b) -> NoDup (classList (applyTheme t b)))
  /\ getItem "theme" (localStorage (applyTheme t b)) = Some (themeName t)
  /\ (forall k, k <> "theme"%string ->
                getItem k (localStorage (applyTheme t b))
                = getItem k (localStorage b)).
Proof.
  split; [|split; [|split; [|split]]].
  - destruct t; simpl.
    + rewrite classRemove_In. split; [intros [_ N]; congruence | discriminate].
    + rewrite classAdd_In. split; auto.
  - intros c N. destruct t; simpl.
    + rewrite classRemove_In. tauto.
    + rewrite classAdd_In. tauto.
  - intros N. destruct t; simpl;
      [now apply NoDup_filter | now apply classAdd_NoDup].
  - reflexivity.
  - intros k N. unfold applyTheme, getItem, setItem. simpl.
    apply String.eqb_neq in N. now rewrite N.
Qed.

(** X22.  Running the effect again for the same theme changes nothing:
    the class list and every storage key are as after the first run. *)
Theorem applyTheme_twice t b :
  classList (applyTheme t (applyTheme t b)) = classList (applyTheme t b)
  /\ forall k, getItem k (localStorage (applyTheme t (applyTheme t b)))
               = getItem k (localStorage (applyTheme t b)).
Proof.
  split.
  - destruct t; simpl; [apply classRemove_twice | apply classAdd_twice].
  - intros k. unfold applyTheme, getItem, setItem. simpl.
    now destruct (String.eqb k "theme").
Qed.

(** X21 at a document element with one class. *)
Lemma applyTheme_sets_only_the_dark_class_witness :
  let b := {| localStorage := fun _ => None; matchMedia := None;
              classList := [ "app"%string ] |} in
  In "app"%string (classList (applyTheme Dark b))
  /\ NoDup (classList (applyTheme Dark b)).
Proof.
  intros b.
  destruct (applyTheme_sets_only_the_dark_class Dark b) as (_ & O & N & _).
  split.
  - apply (O "app"%string); [discriminate | now left].
  - apply N. repeat constructor; simpl; tauto.
Defined.

End ThemeProps.
